(** * Smartpix backend: image-edit request lifecycle

    A shallow embedding of the FastAPI handlers of the Smartpix backend
    ([backend/auth/signup.py], [backend/auth/login.py],
    [backend/api/editor.py], [backend/api/dashboard.py],
    [backend/utils/image_ai.py]) together with the properties the
    specification states about them.

    The three MongoDB collections are lists of typed documents in insertion
    order, the local files are a finite map from resolved paths to byte
    contents, and every handler is a function from the state before
    the request to an outcome and the state after it.  What the handlers
    obtain from outside the process (the clock, freshly generated ObjectIds,
    I/O faults, the salt of bcrypt, the answer of the image service) is an
    explicit argument of the handler.  The third-party libraries (bson,
    passlib, python-jose) are interfaces. *)

From Stdlib Require Import ZArith Lia String Ascii List DecimalString.
From stdpp Require Import base option list strings gmap.

Local Open Scope Z_scope.
Local Open Scope string_scope.

(** ** Python strings *)

Module Py.

(** [s.startswith(p)] *)
Definition startswith (p s : string) : bool := String.prefix p s.

(** [s.endswith(c)] for a one-character suffix. *)
Fixpoint endswith_char (c : ascii) (s : string) : bool :=
  match s with
  | EmptyString => false
  | String d EmptyString => bool_decide (d = c)
  | String _ s' => endswith_char c s'
  end.

(** [s.split(sep)] for a one-character separator: never empty, and
    [''.split(sep) == ['']]. *)
Fixpoint split (sep : ascii) (s : string) : list string :=
  match s with
  | EmptyString => [EmptyString]
  | String c s' =>
      if bool_decide (c = sep) then EmptyString :: split sep s'
      else match split sep s' with
           | [] => [String c EmptyString]
           | h :: t => String c h :: t
           end
  end.

(** [xs[0]] and [xs[-1]] on the result of [split]. *)
Definition first (xs : list string) : string := List.hd EmptyString xs.
Definition last (xs : list string) : string := List.last xs EmptyString.

(** [str(n)] for an [int]. *)
Definition str_int (n : Z) : string := NilZero.string_of_int (Z.to_int n).

(** [posixpath.join(a, b)]: an absolute [b] discards [a]. *)
Definition os_path_join (a b : string) : string :=
  if startswith "/" b then b
  else if bool_decide (a = "") || endswith_char "/" a then a +:+ b
  else a +:+ "/" +:+ b.

(** [sub in s] for strings. *)
Fixpoint contains (sub s : string) : bool :=
  String.prefix sub s ||
  match s with
  | EmptyString => false
  | String _ s' => contains sub s'
  end.

End Py.

(** ** Outcomes of a handler *)

(** A Python exception: its class name and [str(e)]. *)
Record Exn := mkExn { exn_class : string; exn_text : string }.

(** What a request handler does: return a body, raise
    [HTTPException(status_code, detail)], or let another exception escape
    (which the framework answers with a bare 500). *)
Inductive Outcome (A : Type) : Type :=
| Return (body : A)
| HTTPException (status_code : nat) (detail : string)
| Raise (e : Exn).
Arguments Return {A} body.
Arguments HTTPException {A} status_code detail.
Arguments Raise {A} e.

Definition is_Return {A} (o : Outcome A) : bool :=
  match o with Return _ => true | _ => false end.

(** ** Interfaces of the libraries the handlers call *)

(** [bson.ObjectId]: the constructor from a string ([None]: [InvalidId] is
    raised) and [str()]. *)
Class Bson := {
  oid : Type;
  oid_eq_dec :: EqDecision oid;
  ObjectId : string -> option oid;
  oid_str : oid -> string;
}.

(** What bson guarantees and the proofs below rely on: the string form of an
    ObjectId is never empty and parses back to the same ObjectId. *)
Class BsonLaws `{Bson} := {
  oid_str_nonempty : forall o : oid, oid_str o <> "";
  ObjectId_oid_str : forall o : oid, ObjectId (oid_str o) = Some o;
}.

(** [passlib.hash.bcrypt]: [hash] draws a random salt, here its second
    argument.  Both [hash] and [verify] return or raise (on a password with
    a NUL byte or beyond the size limit, [verify] also on a stored string
    that is no bcrypt hash). *)
Class Passlib := {
  bcrypt_hash : string -> string -> Exn + string;
  bcrypt_verify : string -> string -> Exn + bool;
}.

(** The claims of a token, as the handlers build and read them. *)
Record Claims := mkClaims { sub : option string; exp : option Z }.

(** [jose.jwt] with the HS256 algorithm.  [jwt_decode token key now] is
    [None] when [JWTError] is raised (malformed, bad signature, expired). *)
Class Jose := {
  jwt_encode : Claims -> string -> string;
  jwt_decode : string -> string -> Z -> option Claims;
}.

(** What jose guarantees and the proofs below rely on: a token decodes,
    under the key that signed it and before its expiry, to its claims. *)
Class JoseLaws `{Jose} := {
  jwt_decode_encode : forall (c : Claims) (key : string) (e now : Z),
      exp c = Some e -> now <= e -> jwt_decode (jwt_encode c key) key now = Some c;
}.

(** ** MongoDB collections (backend/db.py) *)

Module Mongo.
Section Collection.
Context {D : Type}.

(** [find_one(filter)]: the first document that matches. *)
Definition find_one (q : D -> bool) (c : list D) : option D := List.find q c.

(** [find(filter)]: the cursor over the matching documents. *)
Definition find (q : D -> bool) (c : list D) : list D := List.filter q c.

(** [insert_one(doc)] once the driver has given the document its [_id]. *)
Definition insert_one (d : D) (c : list D) : list D := c ++ [d].

(** [delete_one(filter)]: removes the first document that matches. *)
Fixpoint delete_one (q : D -> bool) (c : list D) : list D :=
  match c with
  | [] => []
  | d :: c' => if q d then c' else d :: delete_one q c'
  end.

(** [delete_many(filter)]: removes every document that matches. *)
Definition delete_many (q : D -> bool) (c : list D) : list D :=
  List.filter (fun d => negb (q d)) c.
End Collection.

(** What [insert_one] does on the driver's side: it generates the [_id]
    and stores the document, or raises. *)
Inductive InsertResult `{Bson} : Type :=
| inserted_id (o : oid)
| insert_raises (e : Exn).
End Mongo.

(** ** Local files

    [open], [os.remove] and [os.path.exists] act on the file a path resolves
    to, not on the path string: a relative path starts at the working
    directory, empty components and "." are skipped, ".." steps to the
    parent.  A file is therefore named by the normalised list of the
    components of its absolute path.  Symbolic links are not modelled, and
    the directories a path names are taken to exist. *)

Module OS.

(** One component of a path, applied to the components resolved so far
    (innermost first). *)
Definition step (resolved : list string) (component : string) : list string :=
  if bool_decide (component = "") || bool_decide (component = ".") then resolved
  else if bool_decide (component = "..") then List.tl resolved
  else component :: resolved.

(** The file a path names when the working directory is [cwd] (the
    components of its absolute path, outermost first). *)
Definition resolve (cwd : list string) (path : string) : list string :=
  List.rev
    (List.fold_left step (Py.split "/" path)
       (if Py.startswith "/" path then [] else List.rev cwd)).

(** The files of the machine: the working directory of the process and the
    content of every regular file. *)
Record FileSystem := mkFS {
  cwd : list string;
  contents : gmap (list string) (list Byte.byte);
}.

(** Reading, writing and removing by path. *)
#[global] Instance fs_lookup : Lookup string (list Byte.byte) FileSystem :=
  fun path fs => contents fs !! resolve (cwd fs) path.

#[global] Instance fs_insert : Insert string (list Byte.byte) FileSystem :=
  fun path data fs =>
    {| cwd := cwd fs; contents := <[resolve (cwd fs) path := data]> (contents fs) |}.

#[global] Instance fs_delete : Delete string FileSystem :=
  fun path fs =>
    {| cwd := cwd fs; contents := delete (resolve (cwd fs) path) (contents fs) |}.

(** Two paths name the same file. *)
Definition same_file (fs : FileSystem) (p q : string) : Prop :=
  resolve (cwd fs) p = resolve (cwd fs) q.



(** How writing a file ends: [open(path, "wb")] raises and nothing
    changes, or the copy raises after [written] bytes, or all is written. *)
Inductive WriteResult : Type :=
| write_ok
| open_raises (e : Exn)
| write_raises (e : Exn) (written : nat).

(** [with open(path, "wb") as f: f.write(data)] *)
Definition write_file (r : WriteResult) (path : string) (data : list Byte.byte)
    (fs : FileSystem) : option Exn * FileSystem :=
  match r with
  | write_ok => (None, <[path := data]> fs)
  | open_raises e => (Some e, fs)
  | write_raises e n => (Some e, <[path := take n data]> fs)
  end.

Definition FileNotFoundError (path : string) : Exn :=
  mkExn "FileNotFoundError" ("[Errno 2] No such file or directory: '" +:+ path +:+ "'").

(** [open(path, "rb").read()] *)
Definition read_file (path : string) (fs : FileSystem) : Exn + list Byte.byte :=
  match fs !! path with
  | Some data => inr data
  | None => inl (FileNotFoundError path)
  end.

(** [os.remove(path)]: [FileNotFoundError] when the file is absent;
    [fault] is any other error the operating system answers with. *)
Definition remove (fault : option Exn) (path : string)
    (fs : FileSystem) : option Exn * FileSystem :=
  match fs !! path with
  | None => (Some (FileNotFoundError path), fs)
  | Some _ =>
      match fault with
      | Some e => (Some e, fs)
      | None => (None, delete path fs)
      end
  end.

(** [os.path.exists(path)] *)
Definition path_exists (path : string) (fs : FileSystem) : bool :=
  bool_decide (is_Some (fs !! path)).

End OS.

(** ** Data model *)

Section Documents.
Context `{Bson}.

(** A document of [users_collection] (signup.py). *)
Record UserDoc := mkUser {
  user__id : oid;
  user_email : string;
  user_username : string;
  user_password_hash : string;
  user_created_at : Z;
}.

(** A document of [images_collection] (editor.py, [upload_image]). *)
Record ImageDoc := mkImage {
  image__id : oid;
  image_user_id : oid;
  image_original_url : string;
  image_filename : string;
  image_uploaded_at : Z;
  image_tags : list string;
}.

(** A document of [edits_collection] (editor.py, [edit_image]). *)
Record EditDoc := mkEdit {
  edit__id : oid;
  edit_image_id : oid;
  edit_edited_url : string;
  edit_prompt : string;
  edit_edited_at : Z;
  edit_user_id : oid;
  edit_edit_type : string;
  edit_intensity : Z;
}.

(** The persisted state: the three collections and the files of the
    machine, among them those under [static/]. *)
Record State := mkState {
  users_collection : list UserDoc;
  images_collection : list ImageDoc;
  edits_collection : list EditDoc;
  files : OS.FileSystem;
}.

End Documents.

(** The process environment: [SECRET_KEY = os.getenv("SECRET_KEY")], read by
    signup.py, login.py, editor.py and dashboard.py alike. *)
Class Environ := { SECRET_KEY : string }.

Definition ALGORITHM : string := "HS256".

(** [timedelta(minutes=m)], in seconds. *)
Definition timedelta_minutes (m : Z) : Z := m * 60.

(** ** backend/utils/security.py *)

Module Security.
Section Security.
Context `{Passlib}.

Definition hash_password (password salt : string) : Exn + string :=
  bcrypt_hash password salt.

Definition verify_password (plain_password hashed : string) : Exn + bool :=
  bcrypt_verify plain_password hashed.
End Security.
End Security.

(** ** backend/utils/image_ai.py *)

Module ImageAI.

(** The [prompts] dictionary of [process_image]. *)
Definition prompts : list (string * string) :=
  [ ("enhance",
     "Apply professional-grade image enhancement with advanced sharpening algorithms, "
     +:+ "noise reduction, and detail amplification. Optimize contrast, brightness, and color "
     +:+ "saturation while preserving natural skin tones and preventing over-processing artifacts.");
    ("restore",
     "Perform comprehensive image restoration using state-of-the-art denoising, deblurring, "
     +:+ "and artifact removal techniques. Reconstruct missing details, eliminate compression "
     +:+ "artifacts, reduce motion blur, and restore original image quality with photorealistic precision.");
    ("retouch",
     "Execute professional portrait retouching with advanced blemish removal, skin smoothing, "
     +:+ "and complexion enhancement. Eliminate imperfections, reduce wrinkles, brighten eyes, "
     +:+ "whiten teeth, and perfect skin texture while maintaining natural appearance.");
    ("style",
     "Transform the image into a masterpiece oil painting with rich textures, vibrant brush "
     +:+ "strokes, and classical artistic techniques. Apply layered paint effects, canvas texture, "
     +:+ "and traditional color palettes while preserving subject recognition.");
    ("background",
     "Perform precision background removal using advanced AI segmentation with sub-pixel accuracy. "
     +:+ "Create clean transparent PNG output with perfect edge detection, hair detail preservation, "
     +:+ "and anti-aliasing for professional compositing results.") ].

(** [edit_type in prompts] *)
Definition in_prompts (edit_type : string) : bool :=
  bool_decide (edit_type ∈ prompts.*1).

(** What the world outside answers during one call of [process_image]:
    whether [OpenAI()] raises, what [client.images.create_variation]
    answers for the uploaded bytes (an exception or [response.data[0].url]),
    what [requests.get(url).content] is, and how writing the output ends. *)
Record World := mkWorld {
  openai_client : option Exn;
  create_variation : list Byte.byte -> Exn + string;
  requests_get : string -> Exn + list Byte.byte;
  write_output : OS.WriteResult;
}.

(** [process_image(input_path, output_path, edit_type, intensity)]: the
    exception it raises, if any, and the files afterwards.  [intensity]
    and the prompt are not passed on to the service. *)
Definition process_image (w : World) (input_path output_path edit_type : string)
    (intensity : Z) (fs : OS.FileSystem)
    : option Exn * OS.FileSystem :=
  if negb (in_prompts edit_type) then
    (Some (mkExn "ValueError" ("Unsupported edit_type: " +:+ edit_type)), fs)
  else
    match openai_client w with
    | Some e => (Some e, fs)
    | None =>
        match OS.read_file input_path fs with
        | inl e => (Some e, fs)
        | inr image =>
            match create_variation w image with
            | inl e => (Some e, fs)
            | inr image_url =>
                match requests_get w image_url with
                | inl e => (Some e, fs)
                | inr img_data => OS.write_file (write_output w) output_path img_data fs
                end
            end
        end
    end.

End ImageAI.

(** ** backend/models/user.py *)

Record AuthRequest := mkAuthRequest { req_email : string; req_password : string }.

Record AuthResponse := mkAuthResponse {
  resp_email : string;
  resp_id : string;
  resp_token : string;
}.

(** ** backend/auth/signup.py *)

Module Signup.
Section Signup.
Context `{Bson, Passlib, Jose, Environ}.

Definition ACCESS_TOKEN_EXPIRE_MINUTES : Z := 60 * 24 * 7.

(** What one call of [signup] gets from outside: the salt bcrypt draws,
    the two readings of [datetime.utcnow()] and the driver's answer to
    [insert_one]. *)
Record World := mkWorld {
  salt : string;
  created_at_now : Z;
  insert_user : Mongo.InsertResult;
  token_now : Z;
}.

Definition signup (w : World) (data : AuthRequest) (st : State)
    : Outcome AuthResponse * State :=
  let existing :=
    Mongo.find_one (fun u => bool_decide (user_email u = req_email data))
      (users_collection st) in
  match existing with
  | Some _ => (HTTPException 400 "Email already registered", st)
  | None =>
      match Security.hash_password (req_password data) (salt w) with
      | inl e => (Raise e, st)
      | inr hashed =>
          match insert_user w with
          | Mongo.insert_raises e => (Raise e, st)
          | Mongo.inserted_id new_id =>
              let user :=
                {| user__id := new_id;
                   user_email := req_email data;
                   user_username := Py.first (Py.split "@" (req_email data));
                   user_password_hash := hashed;
                   user_created_at := created_at_now w |} in
              let st' :=
                {| users_collection := Mongo.insert_one user (users_collection st);
                   images_collection := images_collection st;
                   edits_collection := edits_collection st;
                   files := files st |} in
              let user_id := oid_str new_id in
              let token_payload :=
                {| sub := Some user_id;
                   exp := Some (token_now w
                                + timedelta_minutes ACCESS_TOKEN_EXPIRE_MINUTES) |} in
              let token := jwt_encode token_payload SECRET_KEY in
              (Return {| resp_email := req_email data; resp_id := user_id;
                         resp_token := token |},
               st')
          end
      end
  end.
End Signup.
End Signup.

(** ** backend/auth/login.py *)

Module Login.
Section Login.
Context `{Bson, Passlib, Jose, Environ}.

Definition ACCESS_TOKEN_EXPIRE_MINUTES : Z := 60 * 24 * 7.

(** [OAuth2PasswordRequestForm]: the email travels as [username]. *)
Record OAuth2PasswordRequestForm := mkForm { username : string; password : string }.

(** [now] is the reading of [datetime.utcnow()]. *)
Definition login (now : Z) (form_data : OAuth2PasswordRequestForm) (st : State)
    : Outcome AuthResponse :=
  let user :=
    Mongo.find_one (fun u => bool_decide (user_email u = username form_data))
      (users_collection st) in
  match user with
  | None => HTTPException 401 "Invalid email or password"
  | Some user =>
      match Security.verify_password (password form_data) (user_password_hash user) with
      | inl e => Raise e
      | inr verified =>
          if negb verified
          then HTTPException 401 "Invalid email or password"
          else
            let user_id := oid_str (user__id user) in
            let payload :=
              {| sub := Some user_id;
                 exp := Some (now + timedelta_minutes ACCESS_TOKEN_EXPIRE_MINUTES) |} in
            let token := jwt_encode payload SECRET_KEY in
            Return {| resp_email := user_email user; resp_id := user_id;
                      resp_token := token |}
      end
  end.

(** The helper of login.py (and of editor.py): a missing [sub] is
    refused.  [now] is the time at which jose checks the expiry. *)
Definition get_current_user (now : Z) (token : string) : Outcome string :=
  match jwt_decode token SECRET_KEY now with
  | None => HTTPException 401 "Invalid token"
  | Some payload =>
      match sub payload with
      | None => HTTPException 401 "Invalid token payload"
      | Some user_id => Return user_id
      end
  end.
End Login.
End Login.

(** ** backend/api/editor.py *)

Module Editor.

Definition STATIC_DIR : string := "static".
Definition UPLOAD_DIR : string := Py.os_path_join STATIC_DIR "uploads".
Definition EDIT_DIR : string := Py.os_path_join STATIC_DIR "processed".

(** [UploadFile]: the client's file name and the bytes of the part. *)
Record UploadFile := mkUploadFile { filename : string; file : list Byte.byte }.

Record UploadResponse := mkUploadResponse { image_id : string; url : string }.

Record EditResponse := mkEditResponse { edited_url : string }.

Section Editor.
Context `{Bson}.

(** What one call of [upload_image] gets from outside. *)
Record UploadWorld := mkUploadWorld {
  write_upload : OS.WriteResult;
  uploaded_at_now : Z;
  insert_image : Mongo.InsertResult;
}.

Definition upload_image (w : UploadWorld) (upload : UploadFile) (user_id : string)
    (st : State) : Outcome UploadResponse * State :=
  match ObjectId user_id with
  | None => (HTTPException 400 "Invalid user ID", st)
  | Some user_object_id =>
      let filename := filename upload in
      let upload_path := Py.os_path_join UPLOAD_DIR filename in
      let (failed, fs) :=
        OS.write_file (write_upload w) upload_path (file upload) (files st) in
      let st1 :=
        {| users_collection := users_collection st;
           images_collection := images_collection st;
           edits_collection := edits_collection st;
           files := fs |} in
      match failed with
      | Some e => (HTTPException 500 ("File save failed: " +:+ exn_text e), st1)
      | None =>
          match insert_image w with
          | Mongo.insert_raises e =>
              (HTTPException 500 ("Insert failed: " +:+ exn_text e), st1)
          | Mongo.inserted_id new_id =>
              let image_doc :=
                {| image__id := new_id;
                   image_user_id := user_object_id;
                   image_original_url := "/static/uploads/" +:+ filename;
                   image_filename := filename;
                   image_uploaded_at := uploaded_at_now w;
                   image_tags := [] |} in
              (Return {| image_id := oid_str new_id;
                         url := image_original_url image_doc |},
               {| users_collection := users_collection st1;
                  images_collection := Mongo.insert_one image_doc (images_collection st1);
                  edits_collection := edits_collection st1;
                  files := files st1 |})
          end
      end
  end.

(** What one call of [edit_image] gets from outside: the ObjectId that
    [ObjectId()] generates for the output file, the world of
    [process_image], the clock and the driver's answer to the [insert_one]
    of this call.  That answer belongs to the call and its document: the
    driver raises not only when the store fails but also when it cannot
    encode the document ([OverflowError] for an [intensity] beyond 64 bits),
    so two calls with different documents are two worlds. *)
Record EditWorld := mkEditWorld {
  new_object_id : oid;
  ai : ImageAI.World;
  edited_at_now : Z;
  insert_edit : Mongo.InsertResult;
}.

Definition edit_image (w : EditWorld) (image_id edit_type : string) (intensity : Z)
    (user_id : string) (st : State) : Outcome EditResponse * State :=
  match ObjectId user_id, ObjectId image_id with
  | Some user_object_id, Some image_object_id =>
      let image_doc :=
        Mongo.find_one (fun i => bool_decide (image__id i = image_object_id))
          (images_collection st) in
      match image_doc with
      | None => (HTTPException 404 "Image not found", st)
      | Some image_doc =>
          let input_path := Py.os_path_join UPLOAD_DIR (image_filename image_doc) in
          let output_filename := oid_str (new_object_id w) +:+ ".jpg" in
          let output_path := Py.os_path_join EDIT_DIR output_filename in
          let (raised, fs) :=
            ImageAI.process_image (ai w) input_path output_path edit_type intensity
              (files st) in
          let st1 :=
            {| users_collection := users_collection st;
               images_collection := images_collection st;
               edits_collection := edits_collection st;
               files := fs |} in
          match raised with
          | Some e => (Raise e, st1)
          | None =>
              match insert_edit w with
              | Mongo.insert_raises e => (Raise e, st1)
              | Mongo.inserted_id new_id =>
                  let edit_doc :=
                    {| edit__id := new_id;
                       edit_image_id := image_object_id;
                       edit_edited_url := "/static/processed/" +:+ output_filename;
                       edit_prompt :=
                         edit_type +:+ " with intensity " +:+ Py.str_int intensity;
                       edit_edited_at := edited_at_now w;
                       edit_user_id := user_object_id;
                       edit_edit_type := edit_type;
                       edit_intensity := intensity |} in
                  (Return {| edited_url := edit_edited_url edit_doc |},
                   {| users_collection := users_collection st1;
                      images_collection := images_collection st1;
                      edits_collection :=
                        Mongo.insert_one edit_doc (edits_collection st1);
                      files := files st1 |})
              end
          end
      end
  | _, _ => (HTTPException 400 "Invalid ObjectId", st)
  end.
End Editor.
End Editor.

(** ** backend/api/dashboard.py *)

Module Dashboard.

Definition STATIC_DIR : string := "static".
Definition UPLOAD_DIR : string := Py.os_path_join STATIC_DIR "uploads".
Definition EDIT_DIR : string := Py.os_path_join STATIC_DIR "processed".

(** One element of the list [get_user_images_by_id] returns. *)
Record ImageSummary := mkImageSummary {
  id : string;
  name : string;
  originalImageUrl : string;
  editedImageUrl : option string;
  createdAt : option Z;
  editType : option string;
}.

Record DeleteResponse := mkDeleteResponse { status : string }.

(** [FileResponse(path, media_type=..., filename=...)] *)
Record FileResponse := mkFileResponse {
  path : string;
  media_type : string;
  download_name : string;
}.

Section Dashboard.
Context `{Bson, Jose, Environ}.

(** The helper of dashboard.py: a missing or empty [sub] is refused.
    [now] is the time at which jose checks the expiry. *)
Definition get_current_user (now : Z) (token : string) : Outcome string :=
  match jwt_decode token SECRET_KEY now with
  | None => HTTPException 401 "Invalid token"
  | Some payload =>
      match sub payload with
      | None => HTTPException 401 "Invalid token payload"
      | Some user_id =>
          if bool_decide (user_id = "") then HTTPException 401 "Invalid token payload"
          else Return user_id
      end
  end.

(** The loop of [get_user_images_by_id]: each image of the user with the
    first edit found for it. *)
Definition images_with_edit (user_object_id : oid) (st : State)
    : list (ImageDoc * option EditDoc) :=
  List.map
    (fun image =>
       (image,
        Mongo.find_one (fun e => bool_decide (edit_image_id e = image__id image))
          (edits_collection st)))
    (Mongo.find (fun i => bool_decide (image_user_id i = user_object_id))
       (images_collection st)).

(** The dictionary appended for one image.  The documents are typed, so
    the defaults of [image.get] are never taken and [uploaded_at] is
    always there for [createdAt]. *)
Definition summary (row : ImageDoc * option EditDoc) : ImageSummary :=
  let (image, edit) := row in
  {| id := oid_str (image__id image);
     name := image_filename image;
     originalImageUrl := "http://localhost:8000" +:+ image_original_url image;
     editedImageUrl :=
       match edit with
       | Some e => Some ("http://localhost:8000" +:+ edit_edited_url e)
       | None => None
       end;
     createdAt := Some (image_uploaded_at image);
     editType :=
       match edit with
       | Some e => Some (edit_edit_type e)
       | None => None
       end |}.

Definition get_user_images_by_id (user_id : string) (st : State)
    : Outcome (list ImageSummary) :=
  match ObjectId user_id with
  | None => HTTPException 400 "Invalid user ID"
  | Some user_object_id => Return (List.map summary (images_with_edit user_object_id st))
  end.

(** [delete_image(image_id, current_user)], [current_user] being what
    [get_current_user] returned for the bearer token.  [remove_fault] is
    an error of [os.remove] other than the file being absent. *)
Definition delete_image (remove_fault : option Exn) (image_id current_user : string)
    (st : State) : Outcome DeleteResponse * State :=
  match ObjectId image_id, ObjectId current_user with
  | Some image_object_id, Some user_object_id =>
      let image :=
        Mongo.find_one
          (fun i => bool_decide (image__id i = image_object_id)
                    && bool_decide (image_user_id i = user_object_id))
          (images_collection st) in
      match image with
      | None => (HTTPException 404 "Image not found", st)
      | Some image =>
          let images' :=
            Mongo.delete_one (fun i => bool_decide (image__id i = image_object_id))
              (images_collection st) in
          let edits' :=
            Mongo.delete_many (fun e => bool_decide (edit_image_id e = image_object_id))
              (edits_collection st) in
          let (raised, fs) :=
            OS.remove remove_fault (Py.os_path_join UPLOAD_DIR (image_filename image))
              (files st) in
          let st' :=
            {| users_collection := users_collection st;
               images_collection := images';
               edits_collection := edits';
               files := fs |} in
          match raised with
          | None => (Return {| status := "deleted" |}, st')
          | Some e =>
              if bool_decide (exn_class e = "FileNotFoundError")
              then (Return {| status := "deleted" |}, st')
              else (Raise e, st')
          end
      end
  | _, _ => (HTTPException 400 "Invalid ID", st)
  end.

(** The route [DELETE /images/{image_id}]: the dependency
    [get_current_user] runs on the bearer token first. *)
Definition delete_image_route (now : Z) (remove_fault : option Exn)
    (image_id token : string) (st : State) : Outcome DeleteResponse * State :=
  match get_current_user now token with
  | Return current_user => delete_image remove_fault image_id current_user st
  | HTTPException c d => (HTTPException c d, st)
  | Raise e => (Raise e, st)
  end.


Definition download_edited_image (image_id current_user : string) (st : State)
    : Outcome FileResponse :=
  match ObjectId image_id, ObjectId current_user with
  | Some image_object_id, Some user_object_id =>
      let edit :=
        Mongo.find_one
          (fun e => bool_decide (edit_image_id e = image_object_id)
                    && bool_decide (edit_user_id e = user_object_id))
          (edits_collection st) in
      match edit with
      | None => HTTPException 404 "Edited image not found"
      | Some edit =>
          let filename := Py.last (Py.split "/" (edit_edited_url edit)) in
          let filepath := Py.os_path_join EDIT_DIR filename in
          if negb (OS.path_exists filepath (files st))
          then HTTPException 404 "File not found"
          else Return {| path := filepath; media_type := "image/jpeg";
                         download_name := filename |}
      end
  | _, _ => HTTPException 400 "Invalid ID"
  end.

Definition download_original_image (image_id current_user : string) (st : State)
    : Outcome FileResponse :=
  match ObjectId image_id, ObjectId current_user with
  | Some image_object_id, Some user_object_id =>
      let image :=
        Mongo.find_one
          (fun i => bool_decide (image__id i = image_object_id)
                    && bool_decide (image_user_id i = user_object_id))
          (images_collection st) in
      match image with
      | None => HTTPException 404 "Original image not found"
      | Some image =>
          let filename := image_filename image in
          let filepath := Py.os_path_join UPLOAD_DIR filename in
          if negb (OS.path_exists filepath (files st))
          then HTTPException 404 "File not found"
          else Return {| path := filepath; media_type := "image/png";
                         download_name := filename |}
      end
  | _, _ => HTTPException 400 "Invalid ID"
  end.
End Dashboard.
End Dashboard.

(** ** Reference implementations of the interfaces

    Executable stand-ins for bson, passlib and jose, on which the handlers
    run on concrete requests.  They keep what the handlers use of the
    libraries: ObjectIds are the strings of 24 lower-case hexadecimal digits;
    the password hash embeds the salt and verifies by recomputation; a token
    carries its claims and the key, and decoding checks the key and the
    expiry. *)

Module Reference.

Definition is_hex (c : ascii) : bool :=
  let n := nat_of_ascii c in
  ((48 <=? n) && (n <=? 57) || (97 <=? n) && (n <=? 102))%nat.

Definition is_oid_string (s : string) : bool :=
  (String.length s =? 24)%nat && forallb is_hex (list_ascii_of_string s).

Definition hex_oid : Type := { s : string | is_oid_string s = true }.

Definition parse_oid (s : string) : option hex_oid :=
  match is_oid_string s as b return is_oid_string s = b -> option hex_oid with
  | true => fun ok => Some (exist _ s ok)
  | false => fun _ => None
  end eq_refl.

(** A positive number as a string of binary digits, closed by a dot. *)
Fixpoint enc_pos (p : positive) : string :=
  match p with
  | xI q => String "1" (enc_pos q)
  | xO q => String "0" (enc_pos q)
  | xH => "."
  end.

Fixpoint dec_pos (s : string) : option (positive * string) :=
  match s with
  | String c s' =>
      if bool_decide (c = "1"%char) then
        match dec_pos s' with Some (q, r) => Some (xI q, r) | None => None end
      else if bool_decide (c = "0"%char) then
        match dec_pos s' with Some (q, r) => Some (xO q, r) | None => None end
      else if bool_decide (c = "."%char) then Some (xH, s')
      else None
  | EmptyString => None
  end.

Definition enc_Z (z : Z) : string :=
  match z with
  | Z0 => "z"
  | Zpos p => String "+" (enc_pos p)
  | Zneg p => String "-" (enc_pos p)
  end.

Definition dec_Z (s : string) : option (Z * string) :=
  match s with
  | String c s' =>
      if bool_decide (c = "z"%char) then Some (Z0, s')
      else if bool_decide (c = "+"%char) then
        match dec_pos s' with Some (p, r) => Some (Zpos p, r) | None => None end
      else if bool_decide (c = "-"%char) then
        match dec_pos s' with Some (p, r) => Some (Zneg p, r) | None => None end
      else None
  | EmptyString => None
  end.

(** The first [n] characters of a string and the rest; [None] when the
    string is shorter. *)
Fixpoint split_at (n : nat) (s : string) : option (string * string) :=
  match n, s with
  | O, _ => Some (EmptyString, s)
  | S n', String c s' =>
      match split_at n' s' with Some (a, b) => Some (String c a, b) | None => None end
  | S _, EmptyString => None
  end.

Definition enc_exp (e : option Z) : string :=
  match e with Some z => String "e" (enc_Z z) | None => "n" end.

Definition enc_sub (s : option string) : string :=
  match s with Some u => String "s" u | None => "n" end.

(** A token: the expiry, the key with its length, the subject. *)
Definition encode (c : Claims) (key : string) : string :=
  enc_exp (exp c) +:+ enc_Z (Z.of_nat (String.length key)) +:+ key +:+ enc_sub (sub c).

Definition dec_exp (s : string) : option (option Z * string) :=
  match s with
  | String c s' =>
      if bool_decide (c = "e"%char) then
        match dec_Z s' with Some (z, r) => Some (Some z, r) | None => None end
      else if bool_decide (c = "n"%char) then Some (None, s')
      else None
  | EmptyString => None
  end.

Definition dec_sub (s : string) : option (option string) :=
  match s with
  | String c s' =>
      if bool_decide (c = "s"%char) then Some (Some s')
      else if bool_decide (c = "n"%char) then
        (if bool_decide (s' = "") then Some None else None)
      else None
  | EmptyString => None
  end.

Definition decode (token key : string) (now : Z) : option Claims :=
  match dec_exp token with
  | Some (e, r1) =>
      match dec_Z r1 with
      | Some (n, r2) =>
          match split_at (Z.to_nat n) r2 with
          | Some (k, r3) =>
              if negb (bool_decide (k = key)) then None
              else
                match dec_sub r3 with
                | Some s =>
                    match e with
                    | Some z => if Z.ltb z now then None else Some {| sub := s; exp := e |}
                    | None => Some {| sub := s; exp := e |}
                    end
                | None => None
                end
          | None => None
          end
      | None => None
      end
  | None => None
  end.

(** passlib's checks on the secret: its size, then NUL bytes. *)
Definition MAX_PASSWORD_SIZE : nat := 4096.

Definition PasswordSizeError : Exn :=
  mkExn "PasswordSizeError" "password exceeds maximum allowed size".

Definition NullPasswordError : Exn :=
  mkExn "NullPasswordError" "bcrypt does not allow NULL bytes in password".

Definition has_nul (password : string) : bool :=
  existsb (fun c => bool_decide (c = Ascii.zero)) (list_ascii_of_string password).

Definition hash (password salt : string) : Exn + string :=
  if (MAX_PASSWORD_SIZE <? String.length password)%nat then inl PasswordSizeError
  else if has_nul password then inl NullPasswordError
  else inr (enc_Z (Z.of_nat (String.length salt)) +:+ salt +:+ password).

Definition verify (password hashed : string) : Exn + bool :=
  if (MAX_PASSWORD_SIZE <? String.length password)%nat then inl PasswordSizeError
  else
    match dec_Z hashed with
    | Some (n, r) =>
        match split_at (Z.to_nat n) r with
        | Some (_, p) =>
            if has_nul password then inl NullPasswordError
            else inr (bool_decide (p = password))
        | None => inl (mkExn "ValueError" "not a valid bcrypt hash")
        end
    | None => inl (mkExn "ValueError" "not a valid bcrypt hash")
    end.

(** The hash of a password the checks accept. *)
Definition hash_of (password salt : string) : string :=
  match hash password salt with
  | inr hashed => hashed
  | inl _ => ""
  end.

End Reference.

Module Reference_instances.
Import Reference.

Definition hex_oid_eq_dec : EqDecision hex_oid.
Proof.
  intros [a pa] [b pb]. destruct (decide (a = b)) as [E | N].
  - left. subst b. f_equal. apply (Eqdep_dec.UIP_dec Bool.bool_dec).
  - right. intros E. apply N. exact (f_equal (@proj1_sig _ _) E).
Defined.

Definition bson : Bson :=
  {| oid := hex_oid;
     oid_eq_dec := hex_oid_eq_dec;
     ObjectId := parse_oid;
     oid_str := @proj1_sig _ _ |}.

Definition passlib : Passlib := {| bcrypt_hash := hash; bcrypt_verify := verify |}.

Definition jose : Jose := {| jwt_encode := encode; jwt_decode := decode |}.

Definition environ : Environ := {| SECRET_KEY := "reference-signing-secret" |}.

(** A concrete ObjectId. *)
Definition the_oid (s : string) (ok : is_oid_string s = true) : @oid bson := exist _ s ok.
End Reference_instances.

(** ** The store's guarantee on [_id]

    MongoDB keeps [_id] unique within a collection; the handlers never
    choose an [_id] themselves. *)

Definition ids_unique `{Bson} (st : State) : Prop :=
  NoDup (List.map image__id (images_collection st)).

(** The driver's answer to an [insert_one] into [images_collection] respects
    that guarantee. *)
Definition fresh_image_id `{Bson} (r : Mongo.InsertResult) (st : State) : Prop :=
  match r with
  | Mongo.inserted_id o => o ∉ List.map image__id (images_collection st)
  | Mongo.insert_raises _ => True
  end.

(** An image with this [_id] exists and this user owns it. *)
Definition owned_image `{Bson} (st : State) (image_object_id user_object_id : oid) : Prop :=
  exists i, i ∈ images_collection st /\ image__id i = image_object_id
            /\ image_user_id i = user_object_id.

(** ** A concrete deployment

    Two users, one uploaded image and the worlds in which requests are run
    on it, over the reference implementations. *)

Module Scenario.
Import Reference Reference_instances.
#[local] Existing Instance bson.
#[local] Existing Instance passlib.
#[local] Existing Instance jose.
#[local] Existing Instance environ.

Definition alice : oid := the_oid "64b7f0c2a1d3e4f5a6b7c8d9" eq_refl.
Definition bob : oid := the_oid "64b7f0c2a1d3e4f5a6b7c8da" eq_refl.
Definition cat_id : oid := the_oid "650000000000000000000001" eq_refl.
Definition dog_id : oid := the_oid "650000000000000000000002" eq_refl.
Definition out_id : oid := the_oid "660000000000000000000001" eq_refl.
Definition edit_id : oid := the_oid "670000000000000000000001" eq_refl.
Definition user_id_new : oid := the_oid "640000000000000000000003" eq_refl.

Definition cat_bytes : list Byte.byte := [Byte.x89; Byte.x50; Byte.x4e; Byte.x47].
Definition dog_bytes : list Byte.byte := [Byte.xff; Byte.xd8; Byte.xff].
Definition edited_bytes : list Byte.byte := [Byte.xff; Byte.xd8; Byte.x00; Byte.x01].

Definition alice_doc : UserDoc :=
  {| user__id := alice;
     user_email := "a@x.com";
     user_username := "a";
     user_password_hash := hash_of "pw1" "salt-a";
     user_created_at := 1700000000 |}.

Definition cat_image : ImageDoc :=
  {| image__id := cat_id;
     image_user_id := alice;
     image_original_url := "/static/uploads/cat.png";
     image_filename := "cat.png";
     image_uploaded_at := 1700000100;
     image_tags := [] |}.

Definition cat_edit : EditDoc :=
  {| edit__id := edit_id;
     edit_image_id := cat_id;
     edit_edited_url := "/static/processed/660000000000000000000001.jpg";
     edit_prompt := "enhance with intensity 50";
     edit_edited_at := 1700000200;
     edit_user_id := alice;
     edit_edit_type := "enhance";
     edit_intensity := 50 |}.

(** The process runs in [/srv/smartpix]; no file is there yet. *)
Definition no_files : OS.FileSystem :=
  {| OS.cwd := ["srv"; "smartpix"]; OS.contents := ∅ |}.

Definition empty_state : State :=
  {| users_collection := []; images_collection := []; edits_collection := [];
     files := no_files |}.

(** Alice has signed up and uploaded [cat.png]. *)
Definition uploaded : State :=
  {| users_collection := [alice_doc];
     images_collection := [cat_image];
     edits_collection := [];
     files := <["static/uploads/cat.png" := cat_bytes]> no_files |}.

(** ... and has had it enhanced once. *)
Definition edited : State :=
  {| users_collection := [alice_doc];
     images_collection := [cat_image];
     edits_collection := [cat_edit];
     files := <["static/processed/660000000000000000000001.jpg" := edited_bytes]>
                (<["static/uploads/cat.png" := cat_bytes]> no_files) |}.

(** The image service answers and the output is written. *)
Definition service_ok : ImageAI.World :=
  {| ImageAI.openai_client := None;
     ImageAI.create_variation := fun _ => inr "https://images.example/variation-1.png";
     ImageAI.requests_get := fun _ => inr edited_bytes;
     ImageAI.write_output := OS.write_ok |}.

Definition edit_world : Editor.EditWorld :=
  {| Editor.new_object_id := out_id;
     Editor.ai := service_ok;
     Editor.edited_at_now := 1700000200;
     Editor.insert_edit := Mongo.inserted_id edit_id |}.

Definition upload_world (new_id : oid) (now : Z) : Editor.UploadWorld :=
  {| Editor.write_upload := OS.write_ok;
     Editor.uploaded_at_now := now;
     Editor.insert_image := Mongo.inserted_id new_id |}.

(** The disk refuses the upload. *)
Definition disk_full : Exn :=
  mkExn "OSError" "[Errno 28] No space left on device: 'static/uploads/cat.png'".

Definition upload_world_disk_full : Editor.UploadWorld :=
  {| Editor.write_upload := OS.open_raises disk_full;
     Editor.uploaded_at_now := 1700000100;
     Editor.insert_image := Mongo.inserted_id cat_id |}.

Definition signup_world : Signup.World :=
  {| Signup.salt := "salt-b";
     Signup.created_at_now := 1700000300;
     Signup.insert_user := Mongo.inserted_id user_id_new;
     Signup.token_now := 1700000301 |}.

(** A password with a NUL byte in it: the characters p, w and U+0000. *)
Definition nul_password : string := String "p" (String "w" (String Ascii.zero "")).

(** A second image, Bob's, stored under the same file name as Alice's. *)
Definition second_cat_image : ImageDoc :=
  {| image__id := dog_id;
     image_user_id := bob;
     image_original_url := "/static/uploads/cat.png";
     image_filename := "cat.png";
     image_uploaded_at := 1700000150;
     image_tags := [] |}.

Definition two_cats : State :=
  {| users_collection := [];
     images_collection := [cat_image; second_cat_image];
     edits_collection := [];
     files := <["static/uploads/cat.png" := dog_bytes]> no_files |}.
End Scenario.

(** ** Further guarantees of the libraries

    Used by the properties beyond the claims. *)

(** passlib: a password verifies against the hash made of it, whatever the
    salt. *)
Class PasslibLaws `{Passlib} := {
  bcrypt_verify_hash : forall password salt hashed : string,
      bcrypt_hash password salt = inr hashed ->
      bcrypt_verify password hashed = inr true;
}.

(** jose: a token whose [exp] lies before the time of the check is refused
    ([ExpiredSignatureError], a [JWTError]). *)
Class JoseExpiry `{Jose} := {
  jwt_decode_expired : forall (c : Claims) (key : string) (e now : Z),
      exp c = Some e -> e < now -> jwt_decode (jwt_encode c key) key now = None;
}.

(** bson: the string of an ObjectId is made of hexadecimal digits, so no
    segment separator occurs in it. *)
Class BsonNoSlash `{Bson} := {
  oid_str_no_slash : forall o : oid, Py.split "/" (oid_str o) = [oid_str o];
}.

(** Emails are unique among the stored users. *)
Definition emails_unique `{Bson} (st : State) : Prop :=
  NoDup (List.map user_email (users_collection st)).

(** No edit document refers to this image id. *)
Definition no_edit_of `{Bson} (st : State) (image_object_id : oid) : Prop :=
  forall e, e ∈ edits_collection st -> edit_image_id e <> image_object_id.

(** Every edit document refers to a stored image. *)
Definition edits_refer_to_images `{Bson} (st : State) : Prop :=
  forall e, e ∈ edits_collection st ->
            exists i, i ∈ images_collection st /\ image__id i = edit_image_id e.

(** * Properties *)

(** ** The reference implementations meet the interfaces' laws *)

Section Reference_laws.
Import Reference Reference_instances.

Lemma dec_enc_pos (p : positive) (r : string) : dec_pos (enc_pos p +:+ r) = Some (p, r).
Proof. induction p as [p IH | p IH |]; simpl; by rewrite ?IH. Qed.

Lemma dec_enc_Z (z : Z) (r : string) : dec_Z (enc_Z z +:+ r) = Some (z, r).
Proof. destruct z; simpl; by rewrite ?dec_enc_pos. Qed.

Lemma split_at_app (a r : string) : split_at (String.length a) (a +:+ r) = Some (a, r).
Proof. induction a as [| c a IH]; simpl; by rewrite ?IH. Qed.

Lemma dec_enc_sub (s : option string) : dec_sub (enc_sub s) = Some s.
Proof. by destruct s. Qed.

Lemma decode_encode (c : Claims) (key : string) (e now : Z) :
  exp c = Some e -> now <= e -> decode (encode c key) key now = Some c.
Proof.
  destruct c as [s x]. simpl. intros -> Hle. unfold decode, encode. simpl.
  rewrite dec_enc_Z, dec_enc_Z, Nat2Z.id, split_at_app.
  rewrite bool_decide_eq_true_2 by done. simpl. rewrite dec_enc_sub.
  destruct (Z.ltb_spec e now); [lia | done].
Qed.

Lemma reference_jose_laws : @JoseLaws jose.
Proof. constructor. exact decode_encode. Qed.

Lemma is_oid_string_nonempty (s : string) : is_oid_string s = true -> s <> "".
Proof. by intros Hs ->. Qed.

Lemma parse_oid_proj (o : hex_oid) : parse_oid (proj1_sig o) = Some o.
Proof.
  destruct o as [s ok]. simpl. unfold parse_oid.
  generalize (eq_refl (is_oid_string s)).
  generalize (is_oid_string s) at 2 3. intros b. destruct b; intros Hb.
  - f_equal. f_equal. apply (Eqdep_dec.UIP_dec Bool.bool_dec).
  - congruence.
Qed.

Lemma reference_bson_laws : @BsonLaws bson.
Proof.
  constructor.
  - intros [s ok]. simpl. by apply is_oid_string_nonempty.
  - exact parse_oid_proj.
Qed.

Lemma verify_hash (password salt hashed : string) :
  hash password salt = inr hashed -> verify password hashed = inr true.
Proof.
  unfold verify, hash. destruct (_ <? _)%nat; [done |].
  destruct (has_nul password); [done |]. intros [= <-].
  rewrite dec_enc_Z, Nat2Z.id, split_at_app. by rewrite bool_decide_eq_true_2.
Qed.
End Reference_laws.

(** ** Files *)

Section File_facts.

Lemma fs_lookup_insert_eq (fs : OS.FileSystem) (p : string) (d : list Byte.byte) :
  <[p := d]> fs !! p = Some d.
Proof. unfold lookup, insert, OS.fs_lookup, OS.fs_insert. simpl. apply lookup_insert_eq. Qed.

Lemma fs_lookup_insert_ne (fs : OS.FileSystem) (p q : string) (d : list Byte.byte) :
  ~ OS.same_file fs q p -> <[p := d]> fs !! q = fs !! q.
Proof.
  unfold OS.same_file, lookup, insert, OS.fs_lookup, OS.fs_insert. simpl.
  intros Hne. apply lookup_insert_ne. congruence.
Qed.

Lemma fs_lookup_insert_same (fs : OS.FileSystem) (p q : string) (d : list Byte.byte) :
  OS.same_file fs q p -> <[p := d]> fs !! q = Some d.
Proof.
  unfold OS.same_file, lookup, insert, OS.fs_lookup, OS.fs_insert. simpl.
  intros ->. apply lookup_insert_eq.
Qed.

Lemma fs_lookup_delete_eq (fs : OS.FileSystem) (p : string) : delete p fs !! p = None.
Proof. unfold lookup, delete, OS.fs_lookup, OS.fs_delete. simpl. apply lookup_delete_eq. Qed.


(** No operation moves the process to another working directory. *)
Lemma cwd_insert (fs : OS.FileSystem) (p : string) (d : list Byte.byte) :
  OS.cwd (<[p := d]> fs) = OS.cwd fs.
Proof. reflexivity. Qed.

Lemma cwd_delete (fs : OS.FileSystem) (p : string) : OS.cwd (delete p fs) = OS.cwd fs.
Proof. reflexivity. Qed.

Lemma write_file_cwd (r : OS.WriteResult) (p : string) (d : list Byte.byte)
    (fs : OS.FileSystem) :
  OS.cwd (OS.write_file r p d fs).2 = OS.cwd fs.
Proof. by destruct r. Qed.

(** Writing a file changes no other file. *)
Lemma write_file_other (r : OS.WriteResult) (p q : string) (d : list Byte.byte)
    (fs : OS.FileSystem) :
  ~ OS.same_file fs q p -> (OS.write_file r p d fs).2 !! q = fs !! q.
Proof. intros Hne. destruct r; simpl; [| done |]; by apply fs_lookup_insert_ne. Qed.
End File_facts.

(** ** Collections *)

Section Collection_facts.
Context {D : Type}.

Lemma find_one_Some (q : D -> bool) (c : list D) (d : D) :
  Mongo.find_one q c = Some d -> d ∈ c /\ q d = true.
Proof.
  unfold Mongo.find_one. intros Hf. apply List.find_some in Hf.
  destruct Hf as [Hin Hq]. split; [by apply list_elem_of_In | done].
Qed.

Lemma find_one_None (q : D -> bool) (c : list D) :
  Mongo.find_one q c = None <-> forall d, d ∈ c -> q d = false.
Proof.
  unfold Mongo.find_one. split.
  - intros Hf d Hd. apply (List.find_none q c Hf). by apply list_elem_of_In.
  - induction c as [| d c IH]; intros Hall; simpl; [done |].
    rewrite (Hall d) by constructor. apply IH. intros d' Hd'. apply Hall. by constructor.
Qed.

Lemma find_one_is_Some (q : D -> bool) (c : list D) (d : D) :
  d ∈ c -> q d = true -> exists d', Mongo.find_one q c = Some d'.
Proof.
  intros Hd Hq. destruct (Mongo.find_one q c) as [d' |] eqn:Hf; [by exists d' |].
  rewrite find_one_None in Hf. rewrite (Hf d Hd) in Hq. discriminate.
Qed.

Lemma elem_of_insert_one (d x : D) (c : list D) :
  x ∈ Mongo.insert_one d c <-> x ∈ c \/ x = d.
Proof. unfold Mongo.insert_one. rewrite elem_of_app, list_elem_of_singleton. tauto. Qed.

Lemma elem_of_delete_many (q : D -> bool) (c : list D) (x : D) :
  x ∈ Mongo.delete_many q c <-> x ∈ c /\ q x = false.
Proof.
  unfold Mongo.delete_many. rewrite !list_elem_of_In, List.filter_In.
  rewrite Bool.negb_true_iff. tauto.
Qed.

Lemma delete_one_sublist (q : D -> bool) (c : list D) (x : D) :
  x ∈ Mongo.delete_one q c -> x ∈ c.
Proof.
  induction c as [| d c IH]; simpl; [done |].
  destruct (q d); rewrite ?elem_of_cons; [by right | intros [-> | Hx]; [by left | right; auto]].
Qed.
End Collection_facts.

Section Keyed_collection_facts.
Context {D K : Type} `{EqDecision K} (key : D -> K).

(** Deleting by a unique key leaves no document with that key. *)
Lemma elem_of_delete_one_key (k : K) (c : list D) (x : D) :
  NoDup (List.map key c) ->
  x ∈ Mongo.delete_one (fun d => bool_decide (key d = k)) c <-> x ∈ c /\ key x <> k.
Proof.
  induction c as [| d c IH]; simpl; intros Hnd.
  - split; [intros Hx | intros [Hx _]]; by apply not_elem_of_nil in Hx.
  - apply NoDup_cons in Hnd as [Hd Hnd]. case_bool_decide as Hk.
    + split.
      * intros Hx. split; [by constructor |]. intros Hxk. apply Hd.
        rewrite <- Hk in Hxk. rewrite <- Hxk.
        apply list_elem_of_In, List.in_map, list_elem_of_In, Hx.
      * intros [Hx Hxk]. apply elem_of_cons in Hx as [-> | Hx]; [done | exact Hx].
    + rewrite !elem_of_cons, (IH Hnd). split.
      * intros [-> | [Hx Hxk]]; [by split; [left |] | by split; [right |]].
      * intros [[-> | Hx] Hxk]; [by left | by right].
Qed.

Lemma NoDup_delete_one (q : D -> bool) (c : list D) :
  NoDup (List.map key c) -> NoDup (List.map key (Mongo.delete_one q c)).
Proof.
  induction c as [| d c IH]; simpl; [done |].
  intros Hnd. apply NoDup_cons in Hnd as [Hd Hnd].
  destruct (q d); [done |]. simpl. apply NoDup_cons. split; [| by apply IH].
  intros Hin. apply Hd. apply list_elem_of_In, List.in_map_iff in Hin.
  destruct Hin as (x & Hx & Hxin). rewrite <- Hx.
  apply list_elem_of_In, List.in_map, list_elem_of_In.
  apply delete_one_sublist with q. by apply list_elem_of_In.
Qed.
End Keyed_collection_facts.

(** ** ObjectIds *)

Lemma oid_str_inj `{BsonLaws} (a b : oid) : oid_str a = oid_str b -> a = b.
Proof.
  intros Hab. assert (Hs : Some a = Some b); [| by injection Hs].
  by rewrite <- (ObjectId_oid_str a), <- (ObjectId_oid_str b), Hab.
Qed.

(** ** Deleting an image (dashboard.py) *)

Section Delete_facts.
Context `{Bson}.

Lemma delete_image_unfold (fault : option Exn) (image_id current_user : string)
    (iid uid : oid) (st : State) :
  ObjectId image_id = Some iid ->
  ObjectId current_user = Some uid ->
  Dashboard.delete_image fault image_id current_user st =
    match Mongo.find_one
            (fun i => bool_decide (image__id i = iid) && bool_decide (image_user_id i = uid))
            (images_collection st) with
    | None => (HTTPException 404 "Image not found", st)
    | Some image =>
        let st' :=
          {| users_collection := users_collection st;
             images_collection :=
               Mongo.delete_one (fun i => bool_decide (image__id i = iid))
                 (images_collection st);
             edits_collection :=
               Mongo.delete_many (fun e => bool_decide (edit_image_id e = iid))
                 (edits_collection st);
             files :=
               (OS.remove fault
                  (Py.os_path_join Dashboard.UPLOAD_DIR (image_filename image))
                  (files st)).2 |} in
        match (OS.remove fault
                 (Py.os_path_join Dashboard.UPLOAD_DIR (image_filename image))
                 (files st)).1 with
        | None => (Return {| Dashboard.status := "deleted" |}, st')
        | Some e =>
            if bool_decide (exn_class e = "FileNotFoundError")
            then (Return {| Dashboard.status := "deleted" |}, st')
            else (Raise e, st')
        end
    end.
Proof.
  intros Hi Hu. unfold Dashboard.delete_image. rewrite Hi, Hu.
  destruct (Mongo.find_one _ _) as [image |]; [| done].
  by destruct (OS.remove _ _ _) as [raised fs].
Qed.

Lemma find_owned_None (iid uid : oid) (st : State) :
  Mongo.find_one
    (fun i => bool_decide (image__id i = iid) && bool_decide (image_user_id i = uid))
    (images_collection st) = None <-> ~ owned_image st iid uid.
Proof.
  rewrite find_one_None. unfold owned_image. split.
  - intros Hall (i & Hi & Hid & Hown). specialize (Hall i Hi).
    rewrite !bool_decide_eq_true_2 in Hall by done. discriminate.
  - intros Hno i Hi. apply Bool.not_true_is_false. intros Hq.
    apply andb_prop in Hq as [Hid Hown].
    apply bool_decide_eq_true_1 in Hid, Hown. apply Hno. by exists i.
Qed.

(** The only failure of [os.remove] that is not swallowed is the fault. *)
Lemma remove_raised (fault : option Exn) (p : string) (fs : OS.FileSystem) :
  fault = None ->
  match (OS.remove fault p fs).1 with
  | None => True
  | Some e => exn_class e = "FileNotFoundError"
  end.
Proof. intros ->. unfold OS.remove. by destruct (fs !! p). Qed.
End Delete_facts.

(** C3.  [delete_image], given a well-formed image id and subject id, answers
    404 "Image not found" unless an image with that id exists and is owned by
    the subject.  When it returns, that image existed and was owned by the
    subject, the image document is gone, every edit document referring to the
    image is gone (and no other document is), and the listing of
    [get_user_images_by_id] for that user afterwards has no entry with the
    image's id and no entry built from the image or from an edit of it.  When
    the image is owned and [os.remove] meets no other fault, the handler does
    return.  [_id] is unique in the collection, as the store guarantees. *)
Theorem delete_image_owner_only_then_no_trace `{BsonLaws}
    (fault : option Exn) (image_id current_user : string) (iid uid : oid) (st : State) :
  ObjectId image_id = Some iid ->
  ObjectId current_user = Some uid ->
  ids_unique st ->
  (~ owned_image st iid uid ->
   Dashboard.delete_image fault image_id current_user st
   = (HTTPException 404 "Image not found", st))
  /\ (owned_image st iid uid -> fault = None ->
      exists st', Dashboard.delete_image fault image_id current_user st
                  = (Return {| Dashboard.status := "deleted" |}, st'))
  /\ (forall body st',
        Dashboard.delete_image fault image_id current_user st = (Return body, st') ->
        owned_image st iid uid
        /\ (forall i, i ∈ images_collection st'
                      <-> i ∈ images_collection st /\ image__id i <> iid)
        /\ (forall e, e ∈ edits_collection st'
                      <-> e ∈ edits_collection st /\ edit_image_id e <> iid)
        /\ users_collection st' = users_collection st
        /\ exists listing,
             Dashboard.get_user_images_by_id current_user st' = Return listing
             /\ listing = List.map Dashboard.summary (Dashboard.images_with_edit uid st')
             /\ (forall s, s ∈ listing -> Dashboard.id s <> oid_str iid)
             /\ (forall i e, (i, e) ∈ Dashboard.images_with_edit uid st' ->
                   image__id i <> iid
                   /\ forall e', e = Some e' -> edit_image_id e' <> iid)).
Proof.
  intros Hi Hu Huniq. rewrite (delete_image_unfold fault _ _ _ _ st Hi Hu).
  destruct (Mongo.find_one _ (images_collection st)) as [image |] eqn:Hfind.
  - assert (Hown : owned_image st iid uid).
    { apply find_one_Some in Hfind as [Hin Hq]. apply andb_prop in Hq as [Hq1 Hq2].
      apply bool_decide_eq_true_1 in Hq1, Hq2. by exists image. }
    split; [intros Hno; by destruct Hno |]. split.
    + intros _ Hfault. pose proof (remove_raised fault
        (Py.os_path_join Dashboard.UPLOAD_DIR (image_filename image)) (files st) Hfault) as Hr.
      cbv zeta. destruct (OS.remove _ _ _).1 as [e |]; [| by eexists].
      rewrite bool_decide_eq_true_2 by done. by eexists.
    + intros body st' Hret. split; [done |].
      assert (Hst' : images_collection st'
                     = Mongo.delete_one (fun i => bool_decide (image__id i = iid))
                         (images_collection st)
                     /\ edits_collection st'
                        = Mongo.delete_many (fun e => bool_decide (edit_image_id e = iid))
                            (edits_collection st)
                     /\ users_collection st' = users_collection st).
      { cbv zeta in Hret. destruct (OS.remove _ _ _).1 as [e |].
        - destruct (bool_decide _); [| discriminate]. by injection Hret as _ <-.
        - by injection Hret as _ <-. }
      destruct Hst' as (Himgs & Hedits & Husers).
      assert (Himg : forall i, i ∈ images_collection st'
                               <-> i ∈ images_collection st /\ image__id i <> iid).
      { intros i. rewrite Himgs. by apply elem_of_delete_one_key. }
      assert (Hed : forall e, e ∈ edits_collection st'
                              <-> e ∈ edits_collection st /\ edit_image_id e <> iid).
      { intros e. rewrite Hedits, elem_of_delete_many.
        by rewrite bool_decide_eq_false. }
      assert (Hrows : forall i e, (i, e) ∈ Dashboard.images_with_edit uid st' ->
                        image__id i <> iid
                        /\ forall e', e = Some e' -> edit_image_id e' <> iid).
      { intros i e Hrow. unfold Dashboard.images_with_edit in Hrow.
        apply list_elem_of_In, List.in_map_iff in Hrow as (i' & Heq & Hi').
        injection Heq as -> <-. unfold Mongo.find in Hi'.
        apply List.filter_In in Hi' as [Hi' _]. apply list_elem_of_In, Himg in Hi'.
        split; [apply Hi' |]. intros e' He'. apply find_one_Some in He' as [He' _].
        apply Hed in He' as [_ Hne]. exact Hne. }
      split; [done |]. split; [done |]. split; [done |].
      eexists. split; [unfold Dashboard.get_user_images_by_id; by rewrite Hu |].
      split; [done |]. split; [| done].
      intros s Hs Hid. apply list_elem_of_In, List.in_map_iff in Hs as ([i e] & <- & Hrow).
      simpl in Hid. apply oid_str_inj in Hid.
      apply list_elem_of_In, Hrows in Hrow as [Hne _]. done.
  - apply find_owned_None in Hfind. split; [done |].
    split; [intros Hown; by destruct Hfind |].
    intros body st' Hret. discriminate.
Qed.

Lemma delete_image_owner_only_then_no_trace_witness :
  (exists st',
     @Dashboard.delete_image Reference_instances.bson None
       "650000000000000000000001" "64b7f0c2a1d3e4f5a6b7c8d9" Scenario.edited
     = (Return {| Dashboard.status := "deleted" |}, st'))
  /\ @Dashboard.delete_image Reference_instances.bson None
       "650000000000000000000001" "64b7f0c2a1d3e4f5a6b7c8da" Scenario.edited
     = (HTTPException 404 "Image not found", Scenario.edited).
Proof.
  assert (Huniq : @ids_unique Reference_instances.bson Scenario.edited).
  { unfold ids_unique. simpl. apply NoDup_singleton. }
  split.
  - destruct (@delete_image_owner_only_then_no_trace
                Reference_instances.bson reference_bson_laws None
                "650000000000000000000001" "64b7f0c2a1d3e4f5a6b7c8d9"
                Scenario.cat_id Scenario.alice Scenario.edited eq_refl eq_refl Huniq)
      as (_ & Hreturns & _).
    apply Hreturns; [| reflexivity].
    exists Scenario.cat_image. split; [by left | split; reflexivity].
  - destruct (@delete_image_owner_only_then_no_trace
                Reference_instances.bson reference_bson_laws None
                "650000000000000000000001" "64b7f0c2a1d3e4f5a6b7c8da"
                Scenario.cat_id Scenario.bob Scenario.edited eq_refl eq_refl Huniq)
      as (Hnot_found & _).
    apply Hnot_found. intros (i & Hi & _ & Hown).
    apply list_elem_of_singleton in Hi as ->. simpl in Hown.
    apply (f_equal (@proj1_sig _ _)) in Hown. simpl in Hown. discriminate.
Defined.

(** ** Requesting an edit (editor.py) *)

Section Edit_facts.
Context `{Bson}.

(** [edit_image] once both ids have parsed. *)
Lemma edit_image_unfold (w : Editor.EditWorld) (image_id edit_type : string)
    (intensity : Z) (user_id : string) (uid iid : oid) (st : State) :
  ObjectId user_id = Some uid ->
  ObjectId image_id = Some iid ->
  Editor.edit_image w image_id edit_type intensity user_id st =
    match Mongo.find_one (fun i => bool_decide (image__id i = iid)) (images_collection st) with
    | None => (HTTPException 404 "Image not found", st)
    | Some image_doc =>
        let output_filename := oid_str (Editor.new_object_id w) +:+ ".jpg" in
        let r :=
          ImageAI.process_image (Editor.ai w)
            (Py.os_path_join Editor.UPLOAD_DIR (image_filename image_doc))
            (Py.os_path_join Editor.EDIT_DIR output_filename)
            edit_type intensity (files st) in
        let st1 :=
          {| users_collection := users_collection st;
             images_collection := images_collection st;
             edits_collection := edits_collection st;
             files := r.2 |} in
        match r.1, Editor.insert_edit w with
        | Some e, _ => (Raise e, st1)
        | None, Mongo.insert_raises e => (Raise e, st1)
        | None, Mongo.inserted_id new_id =>
            (Return {| Editor.edited_url := "/static/processed/" +:+ output_filename |},
             {| users_collection := users_collection st;
                images_collection := images_collection st;
                edits_collection :=
                  Mongo.insert_one
                    {| edit__id := new_id;
                       edit_image_id := iid;
                       edit_edited_url := "/static/processed/" +:+ output_filename;
                       edit_prompt :=
                         edit_type +:+ " with intensity " +:+ Py.str_int intensity;
                       edit_edited_at := Editor.edited_at_now w;
                       edit_user_id := uid;
                       edit_edit_type := edit_type;
                       edit_intensity := intensity |}
                    (edits_collection st);
                files := r.2 |})
        end
    end.
Proof.
  intros Hu Hi. unfold Editor.edit_image. rewrite Hu, Hi.
  destruct (Mongo.find_one _ _) as [image_doc |]; [| done].
  cbv zeta. destruct (ImageAI.process_image _ _ _ _ _ _) as [[e |] fs]; simpl; [done |].
  by destruct (Editor.insert_edit w).
Qed.

(** An unsupported edit type makes [process_image] raise before it touches
    anything. *)
Lemma process_image_unsupported (w : ImageAI.World) (input_path output_path edit_type : string)
    (intensity : Z) (fs : OS.FileSystem) :
  ImageAI.in_prompts edit_type = false ->
  ImageAI.process_image w input_path output_path edit_type intensity fs
  = (Some (mkExn "ValueError" ("Unsupported edit_type: " +:+ edit_type)), fs).
Proof. intros Hno. unfold ImageAI.process_image. by rewrite Hno. Qed.
End Edit_facts.

(** C2.  With well-formed ids, [edit_image] answers 404 "Image not found"
    exactly when no image has the given id.  When the image exists, whoever
    owns it, the edit is dispatched: the outcome and the files are those of
    [process_image] on the image's upload, and when that and the insert
    succeed the handler returns the derived locator and stores an edit
    document carrying the caller's subject id.  The image's owner is never
    consulted: the outcome and the files are the same for every well-formed
    subject id. *)
Theorem edit_image_checks_existence_not_ownership `{Bson}
    (w : Editor.EditWorld) (image_id edit_type : string) (intensity : Z)
    (user_id : string) (uid iid : oid) (st : State) :
  ObjectId user_id = Some uid ->
  ObjectId image_id = Some iid ->
  ((forall i, i ∈ images_collection st -> image__id i <> iid) <->
   Editor.edit_image w image_id edit_type intensity user_id st
   = (HTTPException 404 "Image not found", st))
  /\ (forall image_doc,
        Mongo.find_one (fun i => bool_decide (image__id i = iid)) (images_collection st)
        = Some image_doc ->
        let output_name := oid_str (Editor.new_object_id w) +:+ ".jpg" in
        let r :=
          ImageAI.process_image (Editor.ai w)
            (Py.os_path_join Editor.UPLOAD_DIR (image_filename image_doc))
            (Py.os_path_join Editor.EDIT_DIR output_name) edit_type intensity (files st) in
        let res := Editor.edit_image w image_id edit_type intensity user_id st in
        files res.2 = r.2
        /\ (forall e, r.1 = Some e -> res.1 = Raise e)
        /\ (forall new_id,
              r.1 = None -> Editor.insert_edit w = Mongo.inserted_id new_id ->
              res.1 = Return {| Editor.edited_url := "/static/processed/" +:+ output_name |}
              /\ exists edit_doc,
                   edits_collection res.2 = Mongo.insert_one edit_doc (edits_collection st)
                   /\ edit_image_id edit_doc = iid /\ edit_user_id edit_doc = uid))
  /\ (forall user_id' uid',
        ObjectId user_id' = Some uid' ->
        (Editor.edit_image w image_id edit_type intensity user_id' st).1
        = (Editor.edit_image w image_id edit_type intensity user_id st).1
        /\ files (Editor.edit_image w image_id edit_type intensity user_id' st).2
           = files (Editor.edit_image w image_id edit_type intensity user_id st).2).
Proof.
  intros Hu Hi. split; [| split].
  - rewrite (edit_image_unfold w _ _ _ _ _ _ st Hu Hi). split.
    + intros Hno. rewrite (proj2 (find_one_None _ _)); [done |].
      intros d Hd. apply bool_decide_eq_false_2. by apply Hno.
    + destruct (Mongo.find_one _ _) as [image_doc |] eqn:Hf.
      * cbv zeta. destruct (ImageAI.process_image _ _ _ _ _ _).1; [discriminate |].
        destruct (Editor.insert_edit w); discriminate.
      * intros _ i Hin. rewrite find_one_None in Hf.
        specialize (Hf i Hin). by apply bool_decide_eq_false_1 in Hf.
  - intros image_doc Hf. cbv zeta.
    rewrite (edit_image_unfold w _ _ _ _ _ _ st Hu Hi), Hf. cbv zeta.
    destruct (ImageAI.process_image _ _ _ _ _ _) as [[e |] fs]; simpl.
    + split; [done |]. split; [by intros ? [= <-] | intros ? [=]].
    + split; [by destruct (Editor.insert_edit w) |]. split; [intros ? [=] |].
      intros new_id _ ->. simpl. split; [done |]. eexists. by split.
  - intros user_id' uid' Hu'.
    rewrite (edit_image_unfold w _ _ _ _ _ _ st Hu Hi),
            (edit_image_unfold w _ _ _ _ _ _ st Hu' Hi).
    destruct (Mongo.find_one _ _) as [image_doc |]; [| done]. cbv zeta.
    destruct (ImageAI.process_image _ _ _ _ _ _).1; [done |].
    by destruct (Editor.insert_edit w).
Qed.

Lemma edit_image_checks_existence_not_ownership_witness :
  (@Editor.edit_image Reference_instances.bson Scenario.edit_world
     "650000000000000000000001" "enhance" 50 "64b7f0c2a1d3e4f5a6b7c8da" Scenario.uploaded).1
  = Return {| Editor.edited_url := "/static/processed/660000000000000000000001.jpg" |}
  /\ (@Editor.edit_image Reference_instances.bson Scenario.edit_world
        "650000000000000000000001" "enhance" 50 "64b7f0c2a1d3e4f5a6b7c8d9" Scenario.uploaded).1
     = (@Editor.edit_image Reference_instances.bson Scenario.edit_world
          "650000000000000000000001" "enhance" 50 "64b7f0c2a1d3e4f5a6b7c8da"
          Scenario.uploaded).1.
Proof.
  destruct (@edit_image_checks_existence_not_ownership Reference_instances.bson
              Scenario.edit_world "650000000000000000000001" "enhance" 50
              "64b7f0c2a1d3e4f5a6b7c8da" Scenario.bob Scenario.cat_id Scenario.uploaded
              eq_refl eq_refl) as (_ & Hdispatch & Hany).
  split.
  - destruct (Hdispatch Scenario.cat_image eq_refl) as (_ & _ & Hok).
    destruct (Hok Scenario.edit_id) as [Hret _]; [by vm_compute | reflexivity |].
    exact Hret.
  - destruct (Hany "64b7f0c2a1d3e4f5a6b7c8d9" Scenario.alice eq_refl) as [Hsame _].
    exact Hsame.
Defined.

(** C1.  The code at the failing input: Bob requests an edit of Alice's
    image.  The request succeeds and the edit document that is stored
    carries Bob's id, while the image it refers to is owned by Alice: the
    user reference of the edit is not checked against the image's owner
    when it is written. *)
Theorem edit_image_stores_non_owner_user_id :
  let st := Scenario.uploaded in
  let res :=
    @Editor.edit_image Reference_instances.bson Scenario.edit_world
      "650000000000000000000001" "enhance" 50 "64b7f0c2a1d3e4f5a6b7c8da" st in
  res.1 = Return {| Editor.edited_url := "/static/processed/660000000000000000000001.jpg" |}
  /\ images_collection res.2 = [Scenario.cat_image]
  /\ image_user_id Scenario.cat_image = Scenario.alice
  /\ exists edit_doc,
       edits_collection res.2 = [edit_doc]
       /\ edit_image_id edit_doc = image__id Scenario.cat_image
       /\ edit_user_id edit_doc = Scenario.bob
       /\ edit_user_id edit_doc <> image_user_id Scenario.cat_image.
Proof.
  cbv zeta. split; [reflexivity |]. split; [reflexivity |]. split; [reflexivity |].
  eexists. split; [reflexivity |]. split; [reflexivity |]. split; [reflexivity |].
  simpl. intros Heq. apply (f_equal (@proj1_sig _ _)) in Heq. simpl in Heq. discriminate.
Qed.

(** C4, as stated, fails: a request with an unsupported edit type for an
    image id that names no image is answered 404 "Image not found", not with
    the [ValueError] of [process_image], because the edit type is only
    validated inside [process_image], after the lookup. *)
Lemma edit_image_unsupported_type_absent_image_is_not_found :
  ImageAI.in_prompts "blur" = false
  /\ (@Editor.edit_image Reference_instances.bson Scenario.edit_world
        "650000000000000000000002" "blur" 50 "64b7f0c2a1d3e4f5a6b7c8d9"
        Scenario.uploaded).1
     = HTTPException 404 "Image not found"
  /\ (@Editor.edit_image Reference_instances.bson Scenario.edit_world
        "650000000000000000000002" "blur" 50 "64b7f0c2a1d3e4f5a6b7c8d9"
        Scenario.uploaded).1
     <> Raise (mkExn "ValueError" "Unsupported edit_type: blur").
Proof.
  split; [by vm_compute |].
  assert (Hres : (@Editor.edit_image Reference_instances.bson Scenario.edit_world
                    "650000000000000000000002" "blur" 50 "64b7f0c2a1d3e4f5a6b7c8d9"
                    Scenario.uploaded).1
                 = HTTPException 404 "Image not found") by (by vm_compute).
  split; [exact Hres |]. rewrite Hres. discriminate.
Qed.

(** C4, amended.  A request whose edit type is not a key of [prompts] never
    returns and leaves the stored state as it was, so no edit document is
    written.  It is answered 400 "Invalid ObjectId" when an id is malformed,
    404 "Image not found" when no image has the id, and otherwise
    [process_image] raises [ValueError("Unsupported edit_type: ...")]. *)
Theorem edit_image_unsupported_type_fails_without_record `{Bson}
    (w : Editor.EditWorld) (image_id edit_type : string) (intensity : Z)
    (user_id : string) (st : State) :
  ImageAI.in_prompts edit_type = false ->
  let res := Editor.edit_image w image_id edit_type intensity user_id st in
  is_Return res.1 = false
  /\ res.2 = st
  /\ edits_collection res.2 = edits_collection st
  /\ ((ObjectId user_id = None \/ ObjectId image_id = None) ->
      res.1 = HTTPException 400 "Invalid ObjectId")
  /\ (forall uid iid,
        ObjectId user_id = Some uid -> ObjectId image_id = Some iid ->
        (forall i, i ∈ images_collection st -> image__id i <> iid) ->
        res.1 = HTTPException 404 "Image not found")
  /\ (forall uid iid i,
        ObjectId user_id = Some uid -> ObjectId image_id = Some iid ->
        i ∈ images_collection st -> image__id i = iid ->
        res.1 = Raise (mkExn "ValueError" ("Unsupported edit_type: " +:+ edit_type))).
Proof.
  intros Hno. cbv zeta.
  destruct (ObjectId user_id) as [uid |] eqn:Hu; cycle 1.
  { unfold Editor.edit_image. rewrite Hu. repeat split; try done.
    all: intros; simplify_eq. }
  destruct (ObjectId image_id) as [iid |] eqn:Hi; cycle 1.
  { unfold Editor.edit_image. rewrite Hu, Hi. repeat split; try done.
    all: intros; simplify_eq. }
  rewrite (edit_image_unfold w _ _ _ _ _ _ st Hu Hi).
  destruct (Mongo.find_one _ _) as [image_doc |] eqn:Hf.
  - cbv zeta. rewrite process_image_unsupported by done. simpl.
    assert (Hst : {| users_collection := users_collection st;
                     images_collection := images_collection st;
                     edits_collection := edits_collection st;
                     files := files st |} = st) by (by destruct st).
    rewrite Hst. repeat split; try done.
    + intros [? | ?]; simplify_eq.
    + intros uid' iid' [= <-] [= <-] Hall. apply find_one_Some in Hf as [Hin Hq].
      apply bool_decide_eq_true_1 in Hq. by destruct (Hall image_doc Hin).
  - repeat split; try done.
    + intros [? | ?]; simplify_eq.
    + intros uid' iid' i [= <-] [= <-] Hin Hid. rewrite find_one_None in Hf.
      specialize (Hf i Hin). by apply bool_decide_eq_false_1 in Hf.
Qed.

Lemma edit_image_unsupported_type_fails_without_record_witness :
  let res :=
    @Editor.edit_image Reference_instances.bson Scenario.edit_world
      "650000000000000000000001" "blur" 50 "64b7f0c2a1d3e4f5a6b7c8d9" Scenario.uploaded in
  res.1 = Raise (mkExn "ValueError" "Unsupported edit_type: blur")
  /\ edits_collection res.2 = [].
Proof.
  pose proof (@edit_image_unsupported_type_fails_without_record Reference_instances.bson
                Scenario.edit_world "650000000000000000000001" "blur" 50
                "64b7f0c2a1d3e4f5a6b7c8d9" Scenario.uploaded eq_refl)
    as (_ & _ & Hed & _ & _ & Hraise).
  split.
  - apply (Hraise Scenario.alice Scenario.cat_id Scenario.cat_image);
      [reflexivity | reflexivity | by left | reflexivity].
  - exact Hed.
Defined.

(** ** Strings and paths *)

Section Py_facts.

Lemma app_nil_l (s : string) : "" +:+ s = s.
Proof. reflexivity. Qed.

Lemma app_cons (c : ascii) (a b : string) : String c a +:+ b = String c (a +:+ b).
Proof. reflexivity. Qed.

Lemma prefix_refl (s : string) : String.prefix s s = true.
Proof. induction s as [| c s IH]; simpl; [done |]. by destruct (ascii_dec c c). Qed.

Lemma prefix_app (a b : string) : String.prefix a (a +:+ b) = true.
Proof.
  induction a as [| c a IH]; [by destruct b |].
  rewrite app_cons. simpl. by destruct (ascii_dec c c).
Qed.

Lemma prefix_inv (a s : string) : String.prefix a s = true -> exists r, s = a +:+ r.
Proof.
  revert s. induction a as [| c a IH]; intros s Hp; [by exists s |].
  destruct s as [| d s]; [done |]. simpl in Hp.
  destruct (ascii_dec c d) as [-> |]; [| done].
  destruct (IH s Hp) as [r ->]. by exists r.
Qed.

(** The text [sub] occurs in whatever it is appended to. *)
Lemma contains_app (pre sub : string) : Py.contains sub (pre +:+ sub) = true.
Proof.
  induction pre as [| c pre IH].
  - rewrite app_nil_l. destruct sub as [| d sub]; [done |]. cbn [Py.contains].
    by rewrite prefix_refl.
  - rewrite app_cons. cbn [Py.contains]. rewrite IH. apply orb_true_r.
Qed.

(** No segment of [s.split(sep)] starts with the separator. *)
Lemma split_no_leading_sep (sep : ascii) (s seg : string) :
  seg ∈ Py.split sep s -> Py.startswith (String sep EmptyString) seg = false.
Proof.
  assert (Hc : forall c t, c <> sep ->
                 Py.startswith (String sep EmptyString) (String c t) = false).
  { intros c t Hne. unfold Py.startswith. simpl.
    destruct (ascii_dec sep c); [by subst | done]. }
  revert seg. induction s as [| c s IH]; intros seg Hseg; simpl in Hseg.
  - by apply list_elem_of_singleton in Hseg as ->.
  - case_bool_decide as Hsep.
    + apply elem_of_cons in Hseg as [-> | Hseg]; [done | by apply IH].
    + destruct (Py.split sep s) as [| h t] eqn:Hsp.
      * apply list_elem_of_singleton in Hseg as ->. by apply Hc.
      * apply elem_of_cons in Hseg as [-> | Hseg]; [by apply Hc |].
        apply IH. by right.
Qed.

Lemma split_nonempty (sep : ascii) (s : string) : Py.split sep s <> [].
Proof.
  destruct s as [| c s]; simpl; [done |]. case_bool_decide; [done |].
  by destruct (Py.split sep s).
Qed.


(** A relative name is joined under the directory. *)
Lemma os_path_join_relative (dir name : string) :
  Py.startswith "/" name = false -> dir <> "" -> Py.endswith_char "/" dir = false ->
  Py.os_path_join dir name = dir +:+ "/" +:+ name.
Proof.
  intros Hrel Hdir Hend. unfold Py.os_path_join. rewrite Hrel, Hend.
  by rewrite bool_decide_eq_false_2.
Qed.
End Py_facts.

Section Split_facts.

Lemma split_cons_sep (sep : ascii) (s : string) :
  Py.split sep (String sep s) = EmptyString :: Py.split sep s.
Proof. simpl. by rewrite bool_decide_eq_true_2. Qed.

Lemma split_cons_other (sep c : ascii) (s : string) :
  c <> sep ->
  Py.split sep (String c s)
  = match Py.split sep s with
    | [] => [String c EmptyString]
    | h :: t => String c h :: t
    end.
Proof. intros Hc. simpl. by rewrite bool_decide_eq_false_2. Qed.

(** Appending to a string without separator gives a string without
    separator. *)
Lemma split_single_app (sep : ascii) (a b : string) :
  Py.split sep a = [a] -> Py.split sep b = [b] -> Py.split sep (a +:+ b) = [a +:+ b].
Proof.
  intros Ha Hb. induction a as [| c a IH]; [by rewrite app_nil_l |].
  rewrite app_cons. destruct (decide (c = sep)) as [-> | Hc].
  - rewrite split_cons_sep in Ha. discriminate.
  - rewrite split_cons_other in Ha by done. rewrite split_cons_other by done.
    destruct (Py.split sep a) as [| h t] eqn:Hsp; [by destruct (split_nonempty sep a) |].
    injection Ha as -> ->. by rewrite IH.
Qed.

(** The last segment of "/static/processed/" followed by a name without
    "/" is the name. *)
Lemma last_segment_processed (name : string) :
  Py.split "/" name = [name] ->
  Py.last (Py.split "/" ("/static/processed/" +:+ name)) = name.
Proof.
  intros Hn. rewrite !app_cons, app_nil_l.
  repeat (rewrite split_cons_sep || (rewrite split_cons_other by done)).
  rewrite Hn. reflexivity.
Qed.
End Split_facts.

(** ** Uploading (editor.py) *)

Section Upload_facts.
Context `{Bson}.

(** What a returning [upload_image] has done. *)
Lemma upload_image_Return (w : Editor.UploadWorld) (upload : Editor.UploadFile)
    (user_id : string) (st st' : State) (r : Editor.UploadResponse) :
  Editor.upload_image w upload user_id st = (Return r, st') ->
  exists uid new_id,
    ObjectId user_id = Some uid
    /\ Editor.write_upload w = OS.write_ok
    /\ Editor.insert_image w = Mongo.inserted_id new_id
    /\ r = {| Editor.image_id := oid_str new_id;
              Editor.url := "/static/uploads/" +:+ Editor.filename upload |}
    /\ users_collection st' = users_collection st
    /\ edits_collection st' = edits_collection st
    /\ images_collection st'
       = Mongo.insert_one
           {| image__id := new_id;
              image_user_id := uid;
              image_original_url := "/static/uploads/" +:+ Editor.filename upload;
              image_filename := Editor.filename upload;
              image_uploaded_at := Editor.uploaded_at_now w;
              image_tags := [] |}
           (images_collection st)
    /\ files st'
       = <[Py.os_path_join Editor.UPLOAD_DIR (Editor.filename upload) := Editor.file upload]>
           (files st).
Proof.
  unfold Editor.upload_image. destruct (ObjectId user_id) as [uid |]; [| done].
  destruct (Editor.write_upload w) as [| e | e n]; simpl; [| done | done].
  destruct (Editor.insert_image w) as [new_id | e]; [| done].
  intros [= <- <-]. by exists uid, new_id.
Qed.
End Upload_facts.

(** C9, as stated, fails: when the disk refuses the upload, the detail of
    the 500 response ends with the text of the operating system's
    exception. *)
Lemma upload_image_storage_failure_leaks_exception_text :
  (@Editor.upload_image Reference_instances.bson Scenario.upload_world_disk_full
     {| Editor.filename := "cat.png"; Editor.file := Scenario.cat_bytes |}
     "64b7f0c2a1d3e4f5a6b7c8d9" Scenario.empty_state).1
  = HTTPException 500
      "File save failed: [Errno 28] No space left on device: 'static/uploads/cat.png'"
  /\ Py.contains (exn_text Scenario.disk_full)
       "File save failed: [Errno 28] No space left on device: 'static/uploads/cat.png'"
     = true.
Proof. split; by vm_compute. Qed.

(** C9, amended.  When writing the upload raises, whatever the exception,
    the caller is answered 500 with the detail "File save failed: " followed
    by the exception's own text, and no image document is written.  When the
    write succeeds and the insert raises, the detail is "Insert failed: "
    followed by the exception's own text. *)
Theorem upload_image_failure_detail_is_prefix_and_exception_text `{Bson}
    (w : Editor.UploadWorld) (upload : Editor.UploadFile) (user_id : string)
    (uid : oid) (st : State) (e : Exn) :
  ObjectId user_id = Some uid ->
  let res := Editor.upload_image w upload user_id st in
  ((Editor.write_upload w = OS.open_raises e
    \/ exists n, Editor.write_upload w = OS.write_raises e n) ->
   res.1 = HTTPException 500 ("File save failed: " +:+ exn_text e)
   /\ Py.contains (exn_text e) ("File save failed: " +:+ exn_text e) = true
   /\ images_collection res.2 = images_collection st)
  /\ (Editor.write_upload w = OS.write_ok ->
      Editor.insert_image w = Mongo.insert_raises e ->
      res.1 = HTTPException 500 ("Insert failed: " +:+ exn_text e)
      /\ Py.contains (exn_text e) ("Insert failed: " +:+ exn_text e) = true
      /\ images_collection res.2 = images_collection st).
Proof.
  intros Hu. cbv zeta. unfold Editor.upload_image. rewrite Hu. split.
  - intros [Hw | [n Hw]]; rewrite Hw;
      (split; [reflexivity | split; [apply contains_app | reflexivity]]).
  - intros Hw Hins. rewrite Hw, Hins.
    split; [reflexivity | split; [apply contains_app | reflexivity]].
Qed.

Lemma upload_image_failure_detail_is_prefix_and_exception_text_witness :
  (@Editor.upload_image Reference_instances.bson Scenario.upload_world_disk_full
     {| Editor.filename := "cat.png"; Editor.file := Scenario.cat_bytes |}
     "64b7f0c2a1d3e4f5a6b7c8d9" Scenario.empty_state).1
  = HTTPException 500 ("File save failed: " +:+ exn_text Scenario.disk_full).
Proof.
  apply (@upload_image_failure_detail_is_prefix_and_exception_text
           Reference_instances.bson Scenario.upload_world_disk_full
           {| Editor.filename := "cat.png"; Editor.file := Scenario.cat_bytes |}
           "64b7f0c2a1d3e4f5a6b7c8d9" Scenario.alice Scenario.empty_state
           Scenario.disk_full eq_refl).
  left. reflexivity.
Defined.



(** ** Files and deletion *)

Section Resolve_facts.









End Resolve_facts.




(** ** Sessions (signup.py, login.py, dashboard.py) *)

Section Session_facts.
Context `{BsonLaws} `{Passlib} `{JoseLaws} `{Environ}.

(** A token the handlers issue for an ObjectId authenticates to it until
    it expires. *)
Lemma issued_token_authenticates (o : oid) (issued lifetime now : Z) :
  now <= issued + lifetime ->
  let token :=
    jwt_encode {| sub := Some (oid_str o); exp := Some (issued + lifetime) |} SECRET_KEY in
  Dashboard.get_current_user now token = Return (oid_str o)
  /\ Login.get_current_user now token = Return (oid_str o).
Proof.
  intros Hnow. cbv zeta. unfold Dashboard.get_current_user, Login.get_current_user.
  rewrite (jwt_decode_encode _ _ (issued + lifetime) now) by done. simpl.
  rewrite bool_decide_eq_false_2; [done | apply oid_str_nonempty].
Qed.

(** What a returning [signup] has done. *)
Lemma signup_Return (w : Signup.World) (data : AuthRequest) (st st' : State)
    (resp : AuthResponse) :
  Signup.signup w data st = (Return resp, st') ->
  exists new_id,
    Signup.insert_user w = Mongo.inserted_id new_id
    /\ resp_id resp = oid_str new_id
    /\ resp_email resp = req_email data
    /\ resp_token resp
       = jwt_encode
           {| sub := Some (oid_str new_id);
              exp := Some (Signup.token_now w
                           + timedelta_minutes Signup.ACCESS_TOKEN_EXPIRE_MINUTES) |}
           SECRET_KEY.
Proof.
  unfold Signup.signup. destruct (Mongo.find_one _ _); [done |].
  destruct (Security.hash_password _ _) as [e | hashed]; [done |].
  destruct (Signup.insert_user w) as [new_id | e]; [| done].
  intros [= <- _]. by exists new_id.
Qed.

(** What a returning [login] has found. *)
Lemma login_Return (now : Z) (form_data : Login.OAuth2PasswordRequestForm) (st : State)
    (resp : AuthResponse) :
  Login.login now form_data st = Return resp ->
  exists user,
    Mongo.find_one (fun u => bool_decide (user_email u = Login.username form_data))
      (users_collection st) = Some user
    /\ Security.verify_password (Login.password form_data) (user_password_hash user)
       = inr true
    /\ resp_id resp = oid_str (user__id user)
    /\ resp_email resp = user_email user
    /\ resp_token resp
       = jwt_encode
           {| sub := Some (oid_str (user__id user));
              exp := Some (now + timedelta_minutes Login.ACCESS_TOKEN_EXPIRE_MINUTES) |}
           SECRET_KEY.
Proof.
  unfold Login.login. destruct (Mongo.find_one _ _) as [user |]; [| done].
  destruct (Security.verify_password _ _) as [e | [|]] eqn:Hv; simpl; [done | | done].
  intros [= <-]. by exists user.
Qed.
End Session_facts.

(** The lifetime of a session token: seven days, in seconds. *)
Lemma token_lifetime :
  timedelta_minutes Signup.ACCESS_TOKEN_EXPIRE_MINUTES = 604800
  /\ timedelta_minutes Login.ACCESS_TOKEN_EXPIRE_MINUTES = 604800.
Proof. by vm_compute. Qed.

(** C5.  A token returned by [signup] or by [login], presented to
    [get_current_user] under the same [SECRET_KEY] at any time up to its
    expiry, seven days after it was issued, yields the subject id encoded at
    issuance, which is the [id] of the response: the string of the new
    user's ObjectId for signup, of the found user's for login.  This rests on
    jose decoding what it encoded and on an ObjectId's string being
    non-empty. *)
Theorem issued_token_authenticates_to_its_subject
    `{BsonLaws} `{Passlib} `{JoseLaws} `{Environ} (st : State) (now : Z) :
  (forall (w : Signup.World) (data : AuthRequest) (resp : AuthResponse) (st' : State),
     Signup.signup w data st = (Return resp, st') ->
     now <= Signup.token_now w + 604800 ->
     Dashboard.get_current_user now (resp_token resp) = Return (resp_id resp)
     /\ exists new_id,
          Signup.insert_user w = Mongo.inserted_id new_id
          /\ resp_id resp = oid_str new_id)
  /\ (forall (issued : Z) (form_data : Login.OAuth2PasswordRequestForm) (resp : AuthResponse),
        Login.login issued form_data st = Return resp ->
        now <= issued + 604800 ->
        Dashboard.get_current_user now (resp_token resp) = Return (resp_id resp)
        /\ exists user,
             Mongo.find_one (fun u => bool_decide (user_email u = Login.username form_data))
               (users_collection st) = Some user
             /\ resp_id resp = oid_str (user__id user)).
Proof.
  destruct token_lifetime as [Hs Hl]. split.
  - intros w data resp st' Hret Hnow.
    apply signup_Return in Hret as (new_id & Hins & Hid & _ & Htok).
    rewrite Htok, Hid. split; [| by exists new_id].
    apply issued_token_authenticates. by rewrite Hs.
  - intros issued form_data resp Hret Hnow.
    apply login_Return in Hret as (user & Hf & _ & Hid & _ & Htok).
    rewrite Htok, Hid. split; [| by exists user].
    apply issued_token_authenticates. by rewrite Hl.
Qed.

Lemma issued_token_authenticates_to_its_subject_witness :
  match @Login.login Reference_instances.bson Reference_instances.passlib
          Reference_instances.jose Reference_instances.environ
          1700000400 {| Login.username := "a@x.com"; Login.password := "pw1" |}
          Scenario.uploaded with
  | Return resp =>
      @Dashboard.get_current_user Reference_instances.jose Reference_instances.environ
        1700000401 (resp_token resp) = Return "64b7f0c2a1d3e4f5a6b7c8d9"
  | _ => False
  end.
Proof.
  destruct (@issued_token_authenticates_to_its_subject
              Reference_instances.bson reference_bson_laws Reference_instances.passlib
              Reference_instances.jose reference_jose_laws Reference_instances.environ
              Scenario.uploaded 1700000401) as [_ Hlogin].
  destruct (Login.login 1700000400 _ Scenario.uploaded) as [resp | |] eqn:Hret;
    [| vm_compute in Hret; discriminate | vm_compute in Hret; discriminate].
  destruct (Hlogin 1700000400 _ resp Hret) as [Hauth _]; [by vm_compute |].
  rewrite Hauth. f_equal. vm_compute in Hret. by injection Hret as <-.
Defined.

(** C6, as stated, fails on a password bcrypt refuses: a signup with a
    fresh email and a password that holds a NUL byte raises bcrypt's
    exception and stores no user. *)
Lemma signup_fresh_email_null_byte_password_raises :
  let data := {| req_email := "b@x.com"; req_password := Scenario.nul_password |} in
  Mongo.find_one (fun u => bool_decide (user_email u = req_email data))
    (users_collection Scenario.uploaded) = None
  /\ @Signup.signup Reference_instances.bson Reference_instances.passlib
       Reference_instances.jose Reference_instances.environ
       Scenario.signup_world data Scenario.uploaded
     = (Raise Reference.NullPasswordError, Scenario.uploaded).
Proof. split; reflexivity. Qed.

(** C6, amended.  When no stored user has the email of the request, bcrypt
    hashes the password and the store accepts the insert, [signup] returns,
    and afterwards the user collection is the old one followed by one new
    document with that email, the generated id and the hash of the password;
    when bcrypt refuses the password, [signup] raises bcrypt's exception and
    the state is unchanged.  When a stored user has the email, [signup]
    answers 400 "Email already registered" and the state is unchanged; so
    does every signup with the same email after one that returned. *)
Theorem signup_fresh_email_persists_duplicate_fails
    `{Bson} `{Passlib} `{Jose} `{Environ}
    (w : Signup.World) (data : AuthRequest) (st : State) :
  ((forall u, u ∈ users_collection st -> user_email u <> req_email data) ->
   (forall hashed new_id,
      Security.hash_password (req_password data) (Signup.salt w) = inr hashed ->
      Signup.insert_user w = Mongo.inserted_id new_id ->
      exists resp user,
        Signup.signup w data st
        = (Return resp,
           {| users_collection := Mongo.insert_one user (users_collection st);
              images_collection := images_collection st;
              edits_collection := edits_collection st;
              files := files st |})
        /\ user__id user = new_id
        /\ user_email user = req_email data
        /\ user_password_hash user = hashed
        /\ resp_email resp = req_email data
        /\ resp_id resp = oid_str new_id)
   /\ (forall e,
         Security.hash_password (req_password data) (Signup.salt w) = inl e ->
         Signup.signup w data st = (Raise e, st)))
  /\ ((exists u, u ∈ users_collection st /\ user_email u = req_email data) ->
      Signup.signup w data st = (HTTPException 400 "Email already registered", st))
  /\ (forall resp st',
        Signup.signup w data st = (Return resp, st') ->
        forall w' data', req_email data' = req_email data ->
        Signup.signup w' data' st' = (HTTPException 400 "Email already registered", st')).
Proof.
  assert (Hdup : forall w0 d0 s0,
             (exists u, u ∈ users_collection s0 /\ user_email u = req_email d0) ->
             Signup.signup w0 d0 s0 = (HTTPException 400 "Email already registered", s0)).
  { intros w0 d0 s0 (u & Hu & He). unfold Signup.signup.
    destruct (find_one_is_Some (fun u => bool_decide (user_email u = req_email d0))
                (users_collection s0) u Hu) as [u' ->]; [| done].
    by apply bool_decide_eq_true_2. }
  split; [| split].
  - intros Hfresh.
    assert (Hnone : Mongo.find_one (fun u => bool_decide (user_email u = req_email data))
                      (users_collection st) = None).
    { apply find_one_None. intros u Hu. apply bool_decide_eq_false_2. by apply Hfresh. }
    split.
    + intros hashed new_id Hhash Hins. unfold Signup.signup. rewrite Hnone, Hhash, Hins.
      eexists _, _. split; [reflexivity |]. by repeat split.
    + intros e Hhash. unfold Signup.signup. by rewrite Hnone, Hhash.
  - apply Hdup.
  - intros resp st' Hret w' data' Hsame. apply Hdup. revert Hret. unfold Signup.signup.
    destruct (Mongo.find_one _ _); [done |].
    destruct (Security.hash_password _ _) as [e | hashed]; [done |].
    destruct (Signup.insert_user w) as [new_id | e]; [| done].
    intros [= _ <-]. simpl. eexists. split; [apply elem_of_insert_one; by right |].
    by simpl.
Qed.

Lemma signup_fresh_email_persists_duplicate_fails_witness :
  (exists resp st',
     @Signup.signup Reference_instances.bson Reference_instances.passlib
       Reference_instances.jose Reference_instances.environ
       Scenario.signup_world {| req_email := "b@x.com"; req_password := "pw2" |}
       Scenario.uploaded = (Return resp, st')
     /\ List.map user_email (users_collection st') = ["a@x.com"; "b@x.com"])
  /\ @Signup.signup Reference_instances.bson Reference_instances.passlib
       Reference_instances.jose Reference_instances.environ
       Scenario.signup_world {| req_email := "a@x.com"; req_password := "pw2" |}
       Scenario.uploaded
     = (HTTPException 400 "Email already registered", Scenario.uploaded).
Proof.
  split.
  - destruct (@signup_fresh_email_persists_duplicate_fails
                Reference_instances.bson Reference_instances.passlib
                Reference_instances.jose Reference_instances.environ
                Scenario.signup_world {| req_email := "b@x.com"; req_password := "pw2" |}
                Scenario.uploaded) as [Hfresh _].
    destruct Hfresh as [Hfresh _].
    + intros u Hu. apply list_elem_of_singleton in Hu as ->. by vm_compute.
    + destruct (Hfresh (Reference.hash_of "pw2" "salt-b") Scenario.user_id_new)
        as (resp & user & Hret & _ & Hemail & _); [reflexivity | reflexivity |].
      eexists _, _. split; [exact Hret |].
      cbn [users_collection Scenario.uploaded Mongo.insert_one List.map List.app].
      rewrite Hemail. reflexivity.
  - apply (@signup_fresh_email_persists_duplicate_fails
             Reference_instances.bson Reference_instances.passlib
             Reference_instances.jose Reference_instances.environ
             Scenario.signup_world {| req_email := "a@x.com"; req_password := "pw2" |}
             Scenario.uploaded).
    exists Scenario.alice_doc. split; [by left | reflexivity].
Defined.

(** C7.  The claim's two failure cases are not all the failures of
    [login], and the third tells a known email from an unknown one.  With a
    password that holds a NUL byte, [bcrypt.verify] raises instead of
    returning [False]: for the registered email the exception escapes
    [login] (a server error), for an unknown email [verify_password] is
    never called and the answer is the 401 "Invalid email or password". *)
Theorem login_null_byte_password_tells_known_email :
  @Login.login Reference_instances.bson Reference_instances.passlib
    Reference_instances.jose Reference_instances.environ
    1700000400 {| Login.username := "a@x.com"; Login.password := Scenario.nul_password |}
    Scenario.uploaded
  = Raise Reference.NullPasswordError
  /\ @Login.login Reference_instances.bson Reference_instances.passlib
       Reference_instances.jose Reference_instances.environ
       1700000400
       {| Login.username := "nobody@x.com"; Login.password := Scenario.nul_password |}
       Scenario.uploaded
     = HTTPException 401 "Invalid email or password".
Proof. split; reflexivity. Qed.

(** ** The invariant of the image collection *)

Section Unique_ids.
Context `{Bson}.

Lemma ids_unique_upload (w : Editor.UploadWorld) (upload : Editor.UploadFile)
    (user_id : string) (st : State) :
  ids_unique st -> fresh_image_id (Editor.insert_image w) st ->
  ids_unique (Editor.upload_image w upload user_id st).2.
Proof.
  unfold ids_unique, fresh_image_id, Editor.upload_image. intros Hst Hfresh.
  destruct (ObjectId user_id); [| done].
  destruct (OS.write_file _ _ _ _) as [[e |] fs]; [done |].
  destruct (Editor.insert_image w) as [new_id | e]; [| done]. simpl.
  unfold Mongo.insert_one. rewrite List.map_app. simpl.
  apply NoDup_app. split; [done |]. split; [| apply NoDup_singleton].
  intros x Hx Hx'. apply list_elem_of_singleton in Hx' as ->. done.
Qed.

Lemma ids_unique_edit (w : Editor.EditWorld) (image_id edit_type : string) (intensity : Z)
    (user_id : string) (st : State) :
  ids_unique st -> ids_unique (Editor.edit_image w image_id edit_type intensity user_id st).2.
Proof.
  unfold ids_unique, Editor.edit_image. intros Hst.
  destruct (ObjectId user_id); [| done]. destruct (ObjectId image_id); [| done].
  destruct (Mongo.find_one _ _); [| done].
  destruct (ImageAI.process_image _ _ _ _ _ _) as [[e |] fs]; [done |].
  by destruct (Editor.insert_edit w).
Qed.

Lemma ids_unique_delete (fault : option Exn) (image_id current_user : string) (st : State) :
  ids_unique st -> ids_unique (Dashboard.delete_image fault image_id current_user st).2.
Proof.
  unfold ids_unique, Dashboard.delete_image. intros Hst.
  destruct (ObjectId image_id); [| done]. destruct (ObjectId current_user); [| done].
  destruct (Mongo.find_one _ _); [| done].
  destruct (OS.remove _ _ _) as [[e |] fs]; [destruct (bool_decide _) |];
    simpl; by apply NoDup_delete_one.
Qed.

Lemma ids_unique_signup `{Passlib} `{Jose} `{Environ}
    (w : Signup.World) (data : AuthRequest) (st : State) :
  ids_unique st -> ids_unique (Signup.signup w data st).2.
Proof.
  unfold ids_unique, Signup.signup. intros Hst.
  destruct (Mongo.find_one _ _); [done |].
  destruct (Security.hash_password _ _); [done |]. by destruct (Signup.insert_user w).
Qed.
End Unique_ids.

(** ** The handlers on concrete requests *)

Example os_path_join_examples :
  Editor.UPLOAD_DIR = "static/uploads"
  /\ Editor.EDIT_DIR = "static/processed"
  /\ Py.os_path_join Editor.UPLOAD_DIR "cat.png" = "static/uploads/cat.png"
  /\ Py.os_path_join Editor.UPLOAD_DIR "/tmp/cat.png" = "/tmp/cat.png"
  /\ Py.os_path_join "static/" "uploads" = "static/uploads".
Proof. repeat split; reflexivity. Qed.

Example split_examples :
  Py.first (Py.split "@" "a@x.com") = "a"
  /\ Py.split "/" "/static/processed/66.jpg" = [""; "static"; "processed"; "66.jpg"]
  /\ Py.last (Py.split "/" "/static/processed/66.jpg") = "66.jpg"
  /\ Py.split "/" "" = [""].
Proof. repeat split; reflexivity. Qed.

Example prompts_keys :
  ImageAI.prompts.*1 = ["enhance"; "restore"; "retouch"; "style"; "background"]
  /\ ImageAI.in_prompts "style" = true
  /\ ImageAI.in_prompts "Style" = false
  /\ ImageAI.in_prompts "blur" = false.
Proof. repeat split; reflexivity. Qed.

Section Lifecycle.
Import Reference Reference_instances.
#[local] Existing Instance bson.
#[local] Existing Instance passlib.
#[local] Existing Instance jose.
#[local] Existing Instance environ.

(** The scenario of the specification: signup, login, upload of [cat.png],
    one edit, deletion; afterwards the original cannot be fetched and a new
    edit request finds no image. *)
Example lifecycle_scenario :
  let signed_up :=
    Signup.signup
      {| Signup.salt := "salt-a"; Signup.created_at_now := 1700000000;
         Signup.insert_user := Mongo.inserted_id Scenario.alice;
         Signup.token_now := 1700000000 |}
      {| req_email := "a@x.com"; req_password := "pw1" |} Scenario.empty_state in
  let logged_in :=
    Login.login 1700000050 {| Login.username := "a@x.com"; Login.password := "pw1" |}
      signed_up.2 in
  let subject := "64b7f0c2a1d3e4f5a6b7c8d9" in
  let uploaded :=
    Editor.upload_image (Scenario.upload_world Scenario.cat_id 1700000100)
      {| Editor.filename := "cat.png"; Editor.file := Scenario.cat_bytes |}
      subject signed_up.2 in
  let edited :=
    Editor.edit_image Scenario.edit_world "650000000000000000000001" "enhance" 50
      subject uploaded.2 in
  let deleted :=
    Dashboard.delete_image None "650000000000000000000001" subject edited.2 in
  (exists t1 t2,
     signed_up.1 = Return {| resp_email := "a@x.com"; resp_id := subject; resp_token := t1 |}
     /\ logged_in = Return {| resp_email := "a@x.com"; resp_id := subject; resp_token := t2 |}
     /\ t1 <> t2)
  /\ uploaded.1 = Return {| Editor.image_id := "650000000000000000000001";
                            Editor.url := "/static/uploads/cat.png" |}
  /\ uploaded.2 = Scenario.uploaded
  /\ edited.1 = Return {| Editor.edited_url :=
                            "/static/processed/660000000000000000000001.jpg" |}
  /\ edits_collection edited.2 = [Scenario.cat_edit]
  /\ files edited.2 !! "static/processed/660000000000000000000001.jpg"
     = Some Scenario.edited_bytes
  /\ deleted.1 = Return {| Dashboard.status := "deleted" |}
  /\ images_collection deleted.2 = []
  /\ edits_collection deleted.2 = []
  /\ files deleted.2 !! "static/uploads/cat.png" = None
  /\ files deleted.2 !! "static/processed/660000000000000000000001.jpg"
     = Some Scenario.edited_bytes
  /\ Dashboard.get_user_images_by_id subject deleted.2 = Return []
  /\ Dashboard.download_original_image "650000000000000000000001" subject deleted.2
     = HTTPException 404 "Original image not found"
  /\ (Editor.edit_image Scenario.edit_world "650000000000000000000001" "enhance" 50
        subject deleted.2).1
     = HTTPException 404 "Image not found".
Proof.
  cbv zeta. split.
  - eexists _, _. split; [reflexivity |]. split; [reflexivity |]. by vm_compute.
  - repeat split; reflexivity.
Qed.
End Lifecycle.

(** * Properties beyond the claims *)

(** ** The reference implementations meet the further guarantees *)

Section Reference_further_laws.
Import Reference Reference_instances.

Lemma reference_passlib_laws : @PasslibLaws passlib.
Proof. constructor. exact verify_hash. Qed.

Lemma decode_expired (c : Claims) (key : string) (e now : Z) :
  exp c = Some e -> e < now -> decode (encode c key) key now = None.
Proof.
  destruct c as [s x]. simpl. intros -> Hlt. unfold decode, encode. simpl.
  rewrite dec_enc_Z, dec_enc_Z, Nat2Z.id, split_at_app.
  rewrite bool_decide_eq_true_2 by done. simpl. rewrite dec_enc_sub.
  destruct (Z.ltb_spec e now); [done | lia].
Qed.

Lemma reference_jose_expiry : @JoseExpiry jose.
Proof. constructor. exact decode_expired. Qed.

Lemma split_hex (s : string) :
  forallb is_hex (list_ascii_of_string s) = true -> Py.split "/" s = [s].
Proof.
  induction s as [| c s IH]; [done |]. simpl. intros Hs.
  apply andb_prop in Hs as [Hc Hs]. rewrite bool_decide_eq_false_2.
  - by rewrite (IH Hs).
  - intros ->. discriminate.
Qed.

Lemma reference_bson_no_slash : @BsonNoSlash bson.
Proof.
  constructor. intros [s ok]. simpl. apply split_hex.
  unfold is_oid_string in ok. by apply andb_prop in ok as [_ ok].
Qed.
End Reference_further_laws.

(** ** Authentication helpers *)

(** X1.  The helper of login.py (the same as that of editor.py) and the
    helper of dashboard.py give the same answer on every token but one kind:
    a token that decodes to an empty subject is returned as the user "" by
    the former and refused with 401 "Invalid token payload" by the latter.
    What dashboard.py's helper returns is never empty. *)
Theorem get_current_user_helpers_differ_only_on_empty_sub `{Jose} `{Environ}
    (now : Z) (token : string) :
  (Login.get_current_user now token = Dashboard.get_current_user now token
   \/ (Login.get_current_user now token = Return ""
       /\ Dashboard.get_current_user now token = HTTPException 401 "Invalid token payload"))
  /\ (forall u, Dashboard.get_current_user now token = Return u ->
                u <> "" /\ Login.get_current_user now token = Return u)
  /\ (Login.get_current_user now token = Return ""
      <-> exists c, jwt_decode token SECRET_KEY now = Some c /\ sub c = Some "").
Proof.
  unfold Login.get_current_user, Dashboard.get_current_user.
  destruct (jwt_decode token SECRET_KEY now) as [c |].
  - destruct (sub c) as [u |] eqn:Hsub.
    + case_bool_decide as Hu.
      * subst u. split; [right; by split |]. split; [by intros ? [=] |].
        split; [intros _; by exists c | done].
      * split; [by left |]. split; [by intros ? [= <-] |].
        split; [intros [= ->]; done | intros (c' & [= <-] & Hc'); congruence].
    + split; [by left |]. split; [by intros ? [=] |].
      split; [by intros [=] | intros (c' & [= <-] & Hc'); congruence].
  - split; [by left |]. split; [by intros ? [=] |].
    split; [by intros [=] | by intros (c' & [=] & _)].
Qed.

(** ** The delete route *)

(** X2.  [DELETE /images/{image_id}] changes the stored state only when the
    bearer token decodes, under [SECRET_KEY] and at the time of the request,
    to a non-empty subject that is a well-formed id and owns an image with
    the requested id.  A token that does not decode is answered 401
    "Invalid token" with the state untouched. *)
Theorem delete_route_changes_state_only_for_owner_token `{Bson} `{Jose} `{Environ}
    (now : Z) (fault : option Exn) (image_id token : string)
    (st st' : State) (out : Outcome Dashboard.DeleteResponse) :
  Dashboard.delete_image_route now fault image_id token st = (out, st') ->
  st' <> st ->
  exists c u uid iid,
    jwt_decode token SECRET_KEY now = Some c
    /\ sub c = Some u /\ u <> ""
    /\ ObjectId u = Some uid /\ ObjectId image_id = Some iid
    /\ owned_image st iid uid.
Proof.
  unfold Dashboard.delete_image_route, Dashboard.get_current_user.
  destruct (jwt_decode token SECRET_KEY now) as [c |]; [| by intros [= _ <-]].
  destruct (sub c) as [u |] eqn:Hsub; [| by intros [= _ <-]].
  case_bool_decide as Hu; [by intros [= _ <-] |].
  intros Hdel Hne.
  destruct (ObjectId image_id) as [iid |] eqn:Hi;
    [| unfold Dashboard.delete_image in Hdel; rewrite Hi in Hdel;
       injection Hdel as _ <-; done].
  destruct (ObjectId u) as [uid |] eqn:Huid;
    [| unfold Dashboard.delete_image in Hdel; rewrite Hi, Huid in Hdel;
       injection Hdel as _ <-; done].
  exists c, u, uid, iid. repeat split; try done.
  rewrite (delete_image_unfold fault _ _ _ _ st Hi Huid) in Hdel.
  destruct (Mongo.find_one _ _) as [image |] eqn:Hf;
    [| injection Hdel as _ <-; done].
  apply find_one_Some in Hf as [Hin Hq]. apply andb_prop in Hq as [Hq1 Hq2].
  apply bool_decide_eq_true_1 in Hq1, Hq2. by exists image.
Qed.

Lemma delete_route_unauthenticated `{Bson} `{Jose} `{Environ}
    (now : Z) (fault : option Exn) (image_id token : string) (st : State) :
  jwt_decode token SECRET_KEY now = None ->
  Dashboard.delete_image_route now fault image_id token st
  = (HTTPException 401 "Invalid token", st).
Proof.
  intros Hd. unfold Dashboard.delete_image_route, Dashboard.get_current_user.
  by rewrite Hd.
Qed.

Lemma delete_route_changes_state_only_for_owner_token_witness :
  exists c u uid iid,
    @jwt_decode Reference_instances.jose
      (@jwt_encode Reference_instances.jose
         {| sub := Some "64b7f0c2a1d3e4f5a6b7c8d9"; exp := Some 1700605200 |}
         (@SECRET_KEY Reference_instances.environ))
      (@SECRET_KEY Reference_instances.environ) 1700000401 = Some c
    /\ sub c = Some u /\ u <> ""
    /\ @ObjectId Reference_instances.bson u = Some uid
    /\ @ObjectId Reference_instances.bson "650000000000000000000001" = Some iid
    /\ @owned_image Reference_instances.bson Scenario.edited iid uid.
Proof.
  refine (@delete_route_changes_state_only_for_owner_token
            Reference_instances.bson Reference_instances.jose Reference_instances.environ
            1700000401 None "650000000000000000000001"
            (@jwt_encode Reference_instances.jose
               {| sub := Some "64b7f0c2a1d3e4f5a6b7c8d9"; exp := Some 1700605200 |}
               (@SECRET_KEY Reference_instances.environ))
            Scenario.edited _ _ eq_refl _).
  intros Heq. apply (f_equal images_collection) in Heq. discriminate.
Defined.

(** ** Sessions beyond issuance *)

Section Find_one_app.
Context {D : Type}.

Lemma find_one_app (q : D -> bool) (c c' : list D) :
  Mongo.find_one q (c ++ c')%list
  = match Mongo.find_one q c with
    | Some d => Some d
    | None => Mongo.find_one q c'
    end.
Proof.
  unfold Mongo.find_one. induction c as [| d c IH]; simpl; [done |].
  by destruct (q d).
Qed.

Lemma find_one_insert_one (q : D -> bool) (c : list D) (d : D) :
  Mongo.find_one q (Mongo.insert_one d c)
  = match Mongo.find_one q c with
    | Some d' => Some d'
    | None => if q d then Some d else None
    end.
Proof.
  unfold Mongo.insert_one. rewrite find_one_app.
  destruct (Mongo.find_one q c); [done |]. unfold Mongo.find_one. simpl. by destruct (q d).
Qed.
End Find_one_app.

Section Signup_facts.
Context `{Bson} `{Passlib} `{Jose} `{Environ}.

(** What a returning [signup] has stored. *)
Lemma signup_Return_state (w : Signup.World) (data : AuthRequest) (st st' : State)
    (resp : AuthResponse) :
  Signup.signup w data st = (Return resp, st') ->
  exists new_id hashed,
    Signup.insert_user w = Mongo.inserted_id new_id
    /\ Security.hash_password (req_password data) (Signup.salt w) = inr hashed
    /\ (forall u, u ∈ users_collection st -> user_email u <> req_email data)
    /\ resp_id resp = oid_str new_id
    /\ resp_email resp = req_email data
    /\ st' = {| users_collection :=
                  Mongo.insert_one
                    {| user__id := new_id;
                       user_email := req_email data;
                       user_username := Py.first (Py.split "@" (req_email data));
                       user_password_hash := hashed;
                       user_created_at := Signup.created_at_now w |}
                    (users_collection st);
                images_collection := images_collection st;
                edits_collection := edits_collection st;
                files := files st |}.
Proof.
  unfold Signup.signup. destruct (Mongo.find_one _ _) eqn:Hf; [done |].
  destruct (Security.hash_password _ _) as [e | hashed] eqn:Hh; [done |].
  destruct (Signup.insert_user w) as [new_id | e]; [| done].
  intros [= <- <-]. exists new_id, hashed. repeat split; try done.
  intros u Hu. rewrite find_one_None in Hf. specialize (Hf u Hu).
  by apply bool_decide_eq_false_1 in Hf.
Qed.
End Signup_facts.

(** X3.  Signing up and then logging in with the same email and password
    succeeds, at any time, and yields the subject id and the email that
    signup returned.  This rests on a password verifying against its own
    bcrypt hash. *)
Theorem signup_then_login_same_subject
    `{Bson} `{Passlib} `{!PasslibLaws} `{Jose} `{Environ}
    (w : Signup.World) (data : AuthRequest) (st st' : State) (resp : AuthResponse)
    (now : Z) :
  Signup.signup w data st = (Return resp, st') ->
  exists resp',
    Login.login now
      {| Login.username := req_email data; Login.password := req_password data |} st'
    = Return resp'
    /\ resp_id resp' = resp_id resp
    /\ resp_email resp' = resp_email resp.
Proof.
  intros Hret.
  apply signup_Return_state in Hret as (new_id & hashed & _ & Hh & Hfresh & Hid & Hem & ->).
  unfold Login.login. simpl. rewrite find_one_insert_one.
  rewrite (proj2 (find_one_None _ _)).
  - simpl. rewrite bool_decide_eq_true_2 by done.
    unfold Security.verify_password, Security.hash_password in *.
    cbn [user_password_hash user__id user_email Login.password Login.username].
    rewrite (bcrypt_verify_hash _ _ _ Hh). cbn [negb]. eexists. split; [reflexivity |].
    cbn [resp_id resp_email]. by rewrite Hid, Hem.
  - intros u Hu. apply bool_decide_eq_false_2. by apply Hfresh.
Qed.

Lemma signup_then_login_same_subject_witness :
  exists resp',
    @Login.login Reference_instances.bson Reference_instances.passlib
      Reference_instances.jose Reference_instances.environ 1700000500
      {| Login.username := "b@x.com"; Login.password := "pw2" |}
      (@Signup.signup Reference_instances.bson Reference_instances.passlib
         Reference_instances.jose Reference_instances.environ
         Scenario.signup_world {| req_email := "b@x.com"; req_password := "pw2" |}
         Scenario.uploaded).2
    = Return resp'
    /\ resp_id resp' = "640000000000000000000003".
Proof.
  destruct (@signup_then_login_same_subject
              Reference_instances.bson Reference_instances.passlib reference_passlib_laws
              Reference_instances.jose Reference_instances.environ
              Scenario.signup_world {| req_email := "b@x.com"; req_password := "pw2" |}
              Scenario.uploaded _ _ 1700000500 eq_refl) as (resp' & Hlogin & Hid & _).
  exists resp'. split; [exact Hlogin | exact Hid].
Defined.

Section Unique_key_lookup.
Context {D K : Type} `{EqDecision K} (key : D -> K).

(** With unique keys, looking a stored document up by its key finds it. *)
Lemma find_one_unique_key (c : list D) (d : D) :
  NoDup (List.map key c) -> d ∈ c ->
  Mongo.find_one (fun x => bool_decide (key x = key d)) c = Some d.
Proof.
  unfold Mongo.find_one. induction c as [| x c IH]; intros Hnd Hd.
  - by apply not_elem_of_nil in Hd.
  - simpl in Hnd. apply NoDup_cons in Hnd as [Hx Hnd]. simpl.
    apply elem_of_cons in Hd as [-> | Hd].
    + by rewrite bool_decide_eq_true_2.
    + rewrite bool_decide_eq_false_2; [by apply IH |].
      intros Heq. apply Hx. rewrite Heq.
      apply list_elem_of_In, List.in_map, list_elem_of_In, Hd.
Qed.
End Unique_key_lookup.

(** X4.  [signup] keeps the emails of the stored users pairwise distinct,
    whatever the request and whatever the store answers. *)
Theorem signup_keeps_emails_unique `{Bson} `{Passlib} `{Jose} `{Environ}
    (w : Signup.World) (data : AuthRequest) (st : State) :
  emails_unique st -> emails_unique (Signup.signup w data st).2.
Proof.
  unfold emails_unique, Signup.signup. intros Hst.
  destruct (Mongo.find_one _ _) eqn:Hf; [done |].
  destruct (Security.hash_password _ _) as [e | hashed]; [done |].
  destruct (Signup.insert_user w) as [new_id | e]; [| done]. simpl.
  unfold Mongo.insert_one. rewrite List.map_app. simpl.
  apply NoDup_app. split; [done |]. split; [| apply NoDup_singleton].
  intros x Hx Hx'. apply list_elem_of_singleton in Hx' as ->.
  apply list_elem_of_In, List.in_map_iff in Hx as (u & Hu & Hin).
  rewrite find_one_None in Hf. specialize (Hf u (proj2 (list_elem_of_In _ _) Hin)).
  by apply bool_decide_eq_false_1 in Hf.
Qed.

Lemma signup_keeps_emails_unique_witness :
  @emails_unique Reference_instances.bson
    (@Signup.signup Reference_instances.bson Reference_instances.passlib
       Reference_instances.jose Reference_instances.environ
       Scenario.signup_world {| req_email := "b@x.com"; req_password := "pw2" |}
       Scenario.uploaded).2.
Proof.
  apply (@signup_keeps_emails_unique Reference_instances.bson Reference_instances.passlib
           Reference_instances.jose Reference_instances.environ).
  unfold emails_unique. simpl. apply NoDup_singleton.
Defined.

(** X5.  When emails are unique, every stored user logs in under their own
    record: with the user's email and a password for which [verify_password]
    returns [True] on the stored hash,
    [login] returns that user's id and email, never another record's. *)
Theorem login_returns_the_record_of_the_email `{Bson} `{Passlib} `{Jose} `{Environ}
    (now : Z) (password : string) (u : UserDoc) (st : State) :
  emails_unique st ->
  u ∈ users_collection st ->
  Security.verify_password password (user_password_hash u) = inr true ->
  exists resp,
    Login.login now {| Login.username := user_email u; Login.password := password |} st
    = Return resp
    /\ resp_id resp = oid_str (user__id u)
    /\ resp_email resp = user_email u.
Proof.
  intros Huniq Hu Hv. unfold Login.login. cbn [Login.username Login.password].
  rewrite (find_one_unique_key user_email _ u Huniq Hu). rewrite Hv. cbn [negb].
  by eexists.
Qed.

Lemma login_returns_the_record_of_the_email_witness :
  exists resp,
    @Login.login Reference_instances.bson Reference_instances.passlib
      Reference_instances.jose Reference_instances.environ 1700000400
      {| Login.username := "a@x.com"; Login.password := "pw1" |} Scenario.uploaded
    = Return resp
    /\ resp_id resp = "64b7f0c2a1d3e4f5a6b7c8d9".
Proof.
  destruct (@login_returns_the_record_of_the_email
              Reference_instances.bson Reference_instances.passlib
              Reference_instances.jose Reference_instances.environ
              1700000400 "pw1" Scenario.alice_doc Scenario.uploaded)
    as (resp & Hlogin & Hid & _).
  - unfold emails_unique. simpl. apply NoDup_singleton.
  - by left.
  - by vm_compute.
  - exists resp. split; [exact Hlogin | exact Hid].
Defined.

(** X24.  The outcomes of [login]: it returns exactly when the lookup by
    email finds a user record and [verify_password] returns [True] for the
    password and that record's stored hash; it raises the one 401
    "Invalid email or password" when no record has the email and when
    [verify_password] returns [False]; an exception of [verify_password]
    escapes [login]. *)
Theorem login_returns_iff_found_and_verified `{Bson} `{Passlib} `{Jose} `{Environ}
    (now : Z) (form_data : Login.OAuth2PasswordRequestForm) (st : State) :
  let found :=
    Mongo.find_one (fun u => bool_decide (user_email u = Login.username form_data))
      (users_collection st) in
  let denied : Outcome AuthResponse := HTTPException 401 "Invalid email or password" in
  ((exists resp, Login.login now form_data st = Return resp) <->
   (exists user,
      found = Some user
      /\ user ∈ users_collection st
      /\ user_email user = Login.username form_data
      /\ Security.verify_password (Login.password form_data) (user_password_hash user)
         = inr true))
  /\ ((forall u, u ∈ users_collection st -> user_email u <> Login.username form_data) ->
      Login.login now form_data st = denied)
  /\ (forall user,
        found = Some user ->
        Security.verify_password (Login.password form_data) (user_password_hash user)
        = inr false ->
        Login.login now form_data st = denied)
  /\ (forall user e,
        found = Some user ->
        Security.verify_password (Login.password form_data) (user_password_hash user)
        = inl e ->
        Login.login now form_data st = Raise e).
Proof.
  cbv zeta. unfold Login.login.
  destruct (Mongo.find_one _ _) as [user |] eqn:Hf.
  - pose proof (find_one_Some _ _ _ Hf) as [Hin Hq]. apply bool_decide_eq_true_1 in Hq.
    destruct (Security.verify_password _ _) as [e | [|]] eqn:Hv; simpl.
    + split; [split; [by intros [? ?] | intros (u & [= <-] & _ & _ & Hv'); congruence] |].
      split; [intros Hno; by destruct (Hno user Hin) |].
      split; [intros u [= <-] Hv'; congruence | intros u e' [= <-] Hv'; congruence].
    + split; [split; [intros _; by exists user | intros _; by eexists] |].
      split; [intros Hno; by destruct (Hno user Hin) |].
      split; [intros u [= <-] Hv'; congruence | intros u e' [= <-] Hv'; congruence].
    + split; [split; [by intros [? ?] | intros (u & [= <-] & _ & _ & Hv'); congruence] |].
      split; [done |].
      split; [done | intros u e' [= <-] Hv'; congruence].
  - split; [split; [by intros [? ?] | by intros (u & ? & _)] |].
    split; [done |]. split; [done | done].
Qed.

Lemma login_returns_iff_found_and_verified_witness :
  (exists resp,
     @Login.login Reference_instances.bson Reference_instances.passlib
       Reference_instances.jose Reference_instances.environ
       1700000400 {| Login.username := "a@x.com"; Login.password := "pw1" |}
       Scenario.uploaded = Return resp)
  /\ @Login.login Reference_instances.bson Reference_instances.passlib
       Reference_instances.jose Reference_instances.environ
       1700000400 {| Login.username := "a@x.com"; Login.password := "wrong" |}
       Scenario.uploaded = HTTPException 401 "Invalid email or password"
  /\ @Login.login Reference_instances.bson Reference_instances.passlib
       Reference_instances.jose Reference_instances.environ
       1700000400 {| Login.username := "nobody@x.com"; Login.password := "pw1" |}
       Scenario.uploaded = HTTPException 401 "Invalid email or password".
Proof.
  split; [| split].
  - apply (@login_returns_iff_found_and_verified
             Reference_instances.bson Reference_instances.passlib
             Reference_instances.jose Reference_instances.environ
             1700000400 {| Login.username := "a@x.com"; Login.password := "pw1" |}
             Scenario.uploaded).
    exists Scenario.alice_doc. split; [reflexivity |]. split; [by left |].
    split; [reflexivity | reflexivity].
  - apply (@login_returns_iff_found_and_verified
             Reference_instances.bson Reference_instances.passlib
             Reference_instances.jose Reference_instances.environ
             1700000400 {| Login.username := "a@x.com"; Login.password := "wrong" |}
             Scenario.uploaded) with (user := Scenario.alice_doc);
      reflexivity.
  - apply (@login_returns_iff_found_and_verified
             Reference_instances.bson Reference_instances.passlib
             Reference_instances.jose Reference_instances.environ
             1700000400 {| Login.username := "nobody@x.com"; Login.password := "pw1" |}
             Scenario.uploaded).
    intros u Hu. apply list_elem_of_singleton in Hu as ->. by vm_compute.
Defined.

(** X6.  A session token is refused once its seven days have passed: a token
    returned by [signup] or [login], presented later than 604800 seconds
    after it was issued, is answered 401 "Invalid token" by both helpers, and
    the delete route answers the same and leaves the state untouched.  This
    rests on jose refusing a token whose [exp] has passed. *)
Theorem expired_token_is_refused
    `{Bson} `{Passlib} `{Jose} `{!JoseExpiry} `{Environ} (st : State) (now : Z) :
  (forall (w : Signup.World) (data : AuthRequest) (resp : AuthResponse) (st' : State),
     Signup.signup w data st = (Return resp, st') ->
     Signup.token_now w + 604800 < now ->
     Dashboard.get_current_user now (resp_token resp) = HTTPException 401 "Invalid token"
     /\ Login.get_current_user now (resp_token resp) = HTTPException 401 "Invalid token")
  /\ (forall (issued : Z) (form_data : Login.OAuth2PasswordRequestForm) (resp : AuthResponse),
        Login.login issued form_data st = Return resp ->
        issued + 604800 < now ->
        Dashboard.get_current_user now (resp_token resp) = HTTPException 401 "Invalid token"
        /\ Login.get_current_user now (resp_token resp) = HTTPException 401 "Invalid token"
        /\ forall fault image_id st0,
             Dashboard.delete_image_route now fault image_id (resp_token resp) st0
             = (HTTPException 401 "Invalid token", st0)).
Proof.
  destruct token_lifetime as [Hs Hl]. split.
  - intros w data resp st' Hret Hnow.
    apply signup_Return in Hret as (new_id & _ & _ & _ & ->).
    unfold Dashboard.get_current_user, Login.get_current_user.
    rewrite (jwt_decode_expired _ _ (Signup.token_now w + 604800) now);
      [done | by rewrite Hs | done].
  - intros issued form_data resp Hret Hnow.
    apply login_Return in Hret as (user & _ & _ & _ & _ & ->).
    assert (Hdec : jwt_decode
                     (jwt_encode
                        {| sub := Some (oid_str (user__id user));
                           exp := Some (issued
                                        + timedelta_minutes Login.ACCESS_TOKEN_EXPIRE_MINUTES) |}
                        SECRET_KEY) SECRET_KEY now = None).
    { apply (jwt_decode_expired _ _ (issued + 604800) now); [by rewrite Hl | done]. }
    unfold Dashboard.delete_image_route, Dashboard.get_current_user,
      Login.get_current_user. by rewrite Hdec.
Qed.

Lemma expired_token_is_refused_witness :
  match @Login.login Reference_instances.bson Reference_instances.passlib
          Reference_instances.jose Reference_instances.environ
          1700000400 {| Login.username := "a@x.com"; Login.password := "pw1" |}
          Scenario.uploaded with
  | Return resp =>
      @Dashboard.get_current_user Reference_instances.jose Reference_instances.environ
        1700605201 (resp_token resp) = HTTPException 401 "Invalid token"
  | _ => False
  end.
Proof.
  destruct (@expired_token_is_refused
              Reference_instances.bson Reference_instances.passlib
              Reference_instances.jose reference_jose_expiry Reference_instances.environ
              Scenario.uploaded 1700605201) as [_ Hlogin].
  destruct (Login.login 1700000400 _ Scenario.uploaded) as [resp | |] eqn:Hret;
    [| vm_compute in Hret; discriminate | vm_compute in Hret; discriminate].
  destruct (Hlogin 1700000400 _ resp Hret) as [Hauth _]; [by vm_compute |].
  exact Hauth.
Defined.

(** ** Uploads beyond the claims *)

Section Upload_documents.
Context `{Bson}.

(** [upload_image] only ever appends to the images. *)
Lemma upload_image_documents (w : Editor.UploadWorld) (upload : Editor.UploadFile)
    (user_id : string) (st : State) :
  edits_collection (Editor.upload_image w upload user_id st).2 = edits_collection st
  /\ exists added,
       images_collection (Editor.upload_image w upload user_id st).2
       = (images_collection st ++ added)%list.
Proof.
  unfold Editor.upload_image. destruct (ObjectId user_id) as [uid |];
    [| split; [done | exists []; by rewrite app_nil_r]].
  destruct (OS.write_file _ _ _ _) as [[e |] fs];
    [split; [done | exists []; by rewrite app_nil_r] |].
  destruct (Editor.insert_image w) as [new_id | e];
    [| split; [done | exists []; by rewrite app_nil_r]].
  split; [done |]. by eexists [_].
Qed.
End Upload_documents.






Section Upload_lookup.
Context `{Bson}.

End Upload_lookup.



(** X11.  What an upload adds to the listings.  After [upload_image] returns
    for a new image that no edit refers to, the listing of the uploader is
    the former listing followed by one entry for the new image, carrying its
    id, the client's file name, the absolute URL of the original, the upload
    time and no edit; the listing of every other user is unchanged. *)
Theorem upload_appends_one_listing_entry `{Bson}
    (w : Editor.UploadWorld) (upload : Editor.UploadFile) (user_id : string)
    (uid new_id : oid) (st st' : State) (r : Editor.UploadResponse) :
  Editor.upload_image w upload user_id st = (Return r, st') ->
  ObjectId user_id = Some uid ->
  Editor.insert_image w = Mongo.inserted_id new_id ->
  no_edit_of st new_id ->
  (forall before,
     Dashboard.get_user_images_by_id user_id st = Return before ->
     Dashboard.get_user_images_by_id user_id st'
     = Return (before ++
               [ {| Dashboard.id := oid_str new_id;
                    Dashboard.name := Editor.filename upload;
                    Dashboard.originalImageUrl :=
                      "http://localhost:8000/static/uploads/" +:+ Editor.filename upload;
                    Dashboard.editedImageUrl := None;
                    Dashboard.createdAt := Some (Editor.uploaded_at_now w);
                    Dashboard.editType := None |} ])%list)
  /\ (forall other uid',
        ObjectId other = Some uid' -> uid' <> uid ->
        Dashboard.get_user_images_by_id other st'
        = Dashboard.get_user_images_by_id other st).
Proof.
  intros Hret Hu Hins Hno.
  apply upload_image_Return in Hret
    as (uid0 & new0 & Hu0 & _ & Hins0 & _ & _ & Hedits & Himgs & _).
  rewrite Hu in Hu0. injection Hu0 as <-. rewrite Hins in Hins0. injection Hins0 as <-.
  assert (Hrows : forall u,
             Dashboard.images_with_edit u st'
             = (Dashboard.images_with_edit u st ++
                if bool_decide (uid = u)
                then [ ({| image__id := new_id;
                           image_user_id := uid;
                           image_original_url :=
                             "/static/uploads/" +:+ Editor.filename upload;
                           image_filename := Editor.filename upload;
                           image_uploaded_at := Editor.uploaded_at_now w;
                           image_tags := [] |}, None) ]
                else [])%list).
  { intros u. unfold Dashboard.images_with_edit, Mongo.find.
    rewrite Himgs, Hedits. unfold Mongo.insert_one.
    rewrite List.filter_app, List.map_app. f_equal. simpl.
    case_bool_decide; [| done]. simpl. f_equal. f_equal.
    apply find_one_None. intros e He. apply bool_decide_eq_false_2. by apply Hno. }
  split.
  - intros before. unfold Dashboard.get_user_images_by_id. rewrite Hu. intros [= <-].
    rewrite Hrows, bool_decide_eq_true_2 by done. by rewrite List.map_app.
  - intros other uid' Ho Hne. unfold Dashboard.get_user_images_by_id. rewrite Ho.
    rewrite Hrows, bool_decide_eq_false_2 by (by intros ->). by rewrite app_nil_r.
Qed.

Lemma upload_appends_one_listing_entry_witness :
  @Dashboard.get_user_images_by_id Reference_instances.bson "64b7f0c2a1d3e4f5a6b7c8d9"
    (@Editor.upload_image Reference_instances.bson
       (Scenario.upload_world Scenario.dog_id 1700000150)
       {| Editor.filename := "dog.jpg"; Editor.file := Scenario.dog_bytes |}
       "64b7f0c2a1d3e4f5a6b7c8d9" Scenario.uploaded).2
  = Return
      [ {| Dashboard.id := "650000000000000000000001";
           Dashboard.name := "cat.png";
           Dashboard.originalImageUrl := "http://localhost:8000/static/uploads/cat.png";
           Dashboard.editedImageUrl := None;
           Dashboard.createdAt := Some 1700000100;
           Dashboard.editType := None |};
        {| Dashboard.id := "650000000000000000000002";
           Dashboard.name := "dog.jpg";
           Dashboard.originalImageUrl := "http://localhost:8000/static/uploads/dog.jpg";
           Dashboard.editedImageUrl := None;
           Dashboard.createdAt := Some 1700000150;
           Dashboard.editType := None |} ].
Proof.
  destruct (@upload_appends_one_listing_entry Reference_instances.bson
              (Scenario.upload_world Scenario.dog_id 1700000150)
              {| Editor.filename := "dog.jpg"; Editor.file := Scenario.dog_bytes |}
              "64b7f0c2a1d3e4f5a6b7c8d9" Scenario.alice Scenario.dog_id
              Scenario.uploaded _ _ eq_refl eq_refl eq_refl) as [Hown _].
  - intros e He. by apply not_elem_of_nil in He.
  - exact (Hown _ eq_refl).
Defined.

(** ** Referential integrity of the edits *)

(** X12.  Every handler keeps the edits referring to stored images: when
    every edit document refers to a stored image and [_id] is unique among
    the images, the same holds after [upload_image], [edit_image],
    [delete_image] and [signup], whatever the request and its outcome. *)
Theorem handlers_keep_edits_referring_to_images `{Bson} `{Passlib} `{Jose} `{Environ}
    (st : State) :
  edits_refer_to_images st ->
  ids_unique st ->
  (forall w upload user_id,
     edits_refer_to_images (Editor.upload_image w upload user_id st).2)
  /\ (forall w image_id edit_type intensity user_id,
        edits_refer_to_images
          (Editor.edit_image w image_id edit_type intensity user_id st).2)
  /\ (forall fault image_id current_user,
        edits_refer_to_images (Dashboard.delete_image fault image_id current_user st).2)
  /\ (forall w data, edits_refer_to_images (Signup.signup w data st).2).
Proof.
  intros Href Huniq. split; [| split; [| split]].
  - intros w upload user_id.
    destruct (upload_image_documents w upload user_id st) as (Hed & added & Himgs).
    intros e He. rewrite Hed in He. destruct (Href e He) as (i & Hi & Hid).
    exists i. split; [| done]. rewrite Himgs. apply elem_of_app. by left.
  - intros w image_id edit_type intensity user_id. unfold Editor.edit_image.
    destruct (ObjectId user_id) as [uid |]; [| done].
    destruct (ObjectId image_id) as [iid |]; [| done].
    destruct (Mongo.find_one _ _) as [image_doc |] eqn:Hf; [| done].
    destruct (ImageAI.process_image _ _ _ _ _ _) as [[e |] fs]; [done |].
    destruct (Editor.insert_edit w) as [new_id | e]; [| done].
    intros e He. simpl in He. apply elem_of_insert_one in He as [He | ->].
    + by apply Href.
    + apply find_one_Some in Hf as [Hin Hq]. apply bool_decide_eq_true_1 in Hq.
      by exists image_doc.
  - intros fault image_id current_user.
    destruct (ObjectId image_id) as [iid |] eqn:Hi;
      [| unfold Dashboard.delete_image; by rewrite Hi].
    destruct (ObjectId current_user) as [uid |] eqn:Hu;
      [| unfold Dashboard.delete_image; by rewrite Hi, Hu].
    rewrite (delete_image_unfold fault _ _ _ _ st Hi Hu).
    destruct (Mongo.find_one _ _) as [image |]; [| done].
    assert (Hgoal : forall fs,
               edits_refer_to_images
                 {| users_collection := users_collection st;
                    images_collection :=
                      Mongo.delete_one (fun i => bool_decide (image__id i = iid))
                        (images_collection st);
                    edits_collection :=
                      Mongo.delete_many (fun e => bool_decide (edit_image_id e = iid))
                        (edits_collection st);
                    files := fs |}).
    { intros fs e He. simpl in He. apply elem_of_delete_many in He as [He Hq].
      apply bool_decide_eq_false_1 in Hq. destruct (Href e He) as (i & Hin & Hid).
      exists i. split; [| done]. simpl.
      apply (elem_of_delete_one_key image__id); [done |]. split; [done | congruence]. }
    cbv zeta. destruct (OS.remove _ _ _).1 as [e |]; [destruct (bool_decide _) |];
      apply Hgoal.
  - intros w data. unfold Signup.signup.
    destruct (Mongo.find_one _ _); [done |].
    destruct (Security.hash_password _ _); [done |]. by destruct (Signup.insert_user w).
Qed.

Lemma handlers_keep_edits_referring_to_images_witness :
  @edits_refer_to_images Reference_instances.bson
    (@Dashboard.delete_image Reference_instances.bson None
       "650000000000000000000001" "64b7f0c2a1d3e4f5a6b7c8d9" Scenario.edited).2.
Proof.
  destruct (@handlers_keep_edits_referring_to_images
              Reference_instances.bson Reference_instances.passlib
              Reference_instances.jose Reference_instances.environ Scenario.edited)
    as (_ & _ & Hdelete & _).
  - intros e He. apply list_elem_of_singleton in He as ->.
    exists Scenario.cat_image. split; [by left | reflexivity].
  - unfold ids_unique. simpl. apply NoDup_singleton.
  - apply Hdelete.
Defined.

(** ** Edits beyond the claims *)

Section Process_facts.

(** What [process_image] has done when it raises nothing. *)
Lemma process_image_None (w : ImageAI.World) (input_path output_path edit_type : string)
    (intensity : Z) (fs fs' : OS.FileSystem) :
  ImageAI.process_image w input_path output_path edit_type intensity fs = (None, fs') ->
  ImageAI.in_prompts edit_type = true
  /\ exists image image_url img_data,
       fs !! input_path = Some image
       /\ ImageAI.create_variation w image = inr image_url
       /\ ImageAI.requests_get w image_url = inr img_data
       /\ fs' = <[output_path := img_data]> fs.
Proof.
  unfold ImageAI.process_image, OS.read_file.
  destruct (ImageAI.in_prompts edit_type); [| done]. simpl.
  destruct (ImageAI.openai_client w); [done |].
  destruct (fs !! input_path) as [image |]; [| done].
  destruct (ImageAI.create_variation w image) as [e | image_url] eqn:Hc; [done |].
  destruct (ImageAI.requests_get w image_url) as [e | img_data] eqn:Hr; [done |].
  destruct (ImageAI.write_output w) as [| e | e n]; simpl; [| done | done].
  intros [= <-]. split; [done |]. by exists image, image_url, img_data.
Qed.

(** [process_image] changes no file other than its output. *)
Lemma process_image_frame (w : ImageAI.World) (input_path output_path edit_type : string)
    (intensity : Z) (fs : OS.FileSystem) (p : string) :
  ~ OS.same_file fs p output_path ->
  (ImageAI.process_image w input_path output_path edit_type intensity fs).2 !! p = fs !! p.
Proof.
  intros Hp. unfold ImageAI.process_image.
  destruct (negb _); [done |]. destruct (ImageAI.openai_client w); [done |].
  destruct (OS.read_file _ _); [done |]. destruct (ImageAI.create_variation w _); [done |].
  destruct (ImageAI.requests_get w _); [done |]. by apply write_file_other.
Qed.

(** [process_image] removes no file. *)
Lemma process_image_keeps_files (w : ImageAI.World)
    (input_path output_path edit_type : string) (intensity : Z)
    (fs : OS.FileSystem) (p : string) :
  is_Some (fs !! p) ->
  is_Some ((ImageAI.process_image w input_path output_path edit_type intensity fs).2 !! p).
Proof.
  intros Hp.
  destruct (decide (OS.resolve (OS.cwd fs) p = OS.resolve (OS.cwd fs) output_path))
    as [Hsame | Hne]; [| by rewrite process_image_frame].
  unfold ImageAI.process_image.
  destruct (negb _); [done |]. destruct (ImageAI.openai_client w); [done |].
  destruct (OS.read_file _ _); [done |]. destruct (ImageAI.create_variation w _); [done |].
  destruct (ImageAI.requests_get w _); [done |].
  destruct (ImageAI.write_output w); simpl; by rewrite ?fs_lookup_insert_same.
Qed.

(** Unless writing the output is what fails, a raising [process_image] has
    changed nothing. *)
Lemma process_image_raise_unchanged (w : ImageAI.World)
    (input_path output_path edit_type : string) (intensity : Z)
    (fs fs' : OS.FileSystem) (e : Exn) :
  ImageAI.process_image w input_path output_path edit_type intensity fs = (Some e, fs') ->
  ImageAI.write_output w = OS.write_ok -> fs' = fs.
Proof.
  unfold ImageAI.process_image. intros Hp Hw. rewrite Hw in Hp.
  destruct (negb _); [by injection Hp |]. destruct (ImageAI.openai_client w); [by injection Hp |].
  destruct (OS.read_file _ _); [by injection Hp |].
  destruct (ImageAI.create_variation w _); [by injection Hp |].
  destruct (ImageAI.requests_get w _); [by injection Hp | done].
Qed.
End Process_facts.

Section Edit_documents.
Context `{Bson}.

(** [edit_image] only ever appends to the edits, and only when it returns. *)
Lemma edit_image_edits (w : Editor.EditWorld) (image_id edit_type : string)
    (intensity : Z) (user_id : string) (st : State) :
  exists added,
    edits_collection (Editor.edit_image w image_id edit_type intensity user_id st).2
    = (edits_collection st ++ added)%list
    /\ (is_Return (Editor.edit_image w image_id edit_type intensity user_id st).1 = false ->
        added = []).
Proof.
  unfold Editor.edit_image.
  destruct (ObjectId user_id) as [uid |]; [| exists []; by rewrite app_nil_r].
  destruct (ObjectId image_id) as [iid |]; [| exists []; by rewrite app_nil_r].
  destruct (Mongo.find_one _ _) as [image_doc |]; [| exists []; by rewrite app_nil_r].
  destruct (ImageAI.process_image _ _ _ _ _ _) as [[e |] fs];
    [exists []; by rewrite app_nil_r |].
  destruct (Editor.insert_edit w) as [new_id | e]; [| exists []; by rewrite app_nil_r].
  by eexists [_].
Qed.

(** [edit_image] removes no file. *)
Lemma edit_image_keeps_files (w : Editor.EditWorld) (image_id edit_type : string)
    (intensity : Z) (user_id : string) (st : State) (p : string) :
  is_Some (files st !! p) ->
  is_Some (files (Editor.edit_image w image_id edit_type intensity user_id st).2 !! p).
Proof.
  intros Hp. unfold Editor.edit_image.
  destruct (ObjectId user_id) as [uid |]; [| done].
  destruct (ObjectId image_id) as [iid |]; [| done].
  destruct (Mongo.find_one _ _) as [image_doc |]; [| done].
  pose proof (process_image_keeps_files (Editor.ai w)
                (Py.os_path_join Editor.UPLOAD_DIR (image_filename image_doc))
                (Py.os_path_join Editor.EDIT_DIR
                   (oid_str (Editor.new_object_id w) +:+ ".jpg"))
                edit_type intensity (files st) p Hp) as Hkeep.
  destruct (ImageAI.process_image _ _ _ _ _ _) as [[e |] fs]; [done |].
  by destruct (Editor.insert_edit w).
Qed.
End Edit_documents.


(** X14.  A failing [edit_image] writes no edit document, and unless the
    failure lies in writing the output file or in the insert itself, it
    leaves the whole state as it was.  In particular, when the image's
    upload is no longer on disk, a request with a supported edit type raises
    [FileNotFoundError] for the upload path and changes nothing. *)
Theorem edit_image_failure_changes_nothing `{Bson}
    (w : Editor.EditWorld) (image_id edit_type : string) (intensity : Z)
    (user_id : string) (st : State) :
  let res := Editor.edit_image w image_id edit_type intensity user_id st in
  (is_Return res.1 = false -> edits_collection res.2 = edits_collection st)
  /\ (is_Return res.1 = false ->
      ImageAI.write_output (Editor.ai w) = OS.write_ok ->
      (forall e, Editor.insert_edit w <> Mongo.insert_raises e) ->
      res.2 = st)
  /\ (forall uid iid image_doc,
        ObjectId user_id = Some uid -> ObjectId image_id = Some iid ->
        Mongo.find_one (fun i => bool_decide (image__id i = iid)) (images_collection st)
        = Some image_doc ->
        ImageAI.in_prompts edit_type = true ->
        ImageAI.openai_client (Editor.ai w) = None ->
        files st !! Py.os_path_join Editor.UPLOAD_DIR (image_filename image_doc) = None ->
        res = (Raise (OS.FileNotFoundError
                        (Py.os_path_join Editor.UPLOAD_DIR (image_filename image_doc))),
               st)).
Proof.
  cbv zeta. assert (Hst : forall s : State,
             {| users_collection := users_collection s;
                images_collection := images_collection s;
                edits_collection := edits_collection s;
                files := files s |} = s) by (by intros []).
  split; [| split].
  - intros Hfail. destruct (edit_image_edits w image_id edit_type intensity user_id st)
      as (added & Hadd & Hnil).
    rewrite Hadd, (Hnil Hfail). by rewrite app_nil_r.
  - unfold Editor.edit_image.
    destruct (ObjectId user_id) as [uid |]; [| done].
    destruct (ObjectId image_id) as [iid |]; [| done].
    destruct (Mongo.find_one _ _) as [image_doc |]; [| done].
    destruct (ImageAI.process_image _ _ _ _ _ _) as [[e |] fs] eqn:Hp; simpl.
    + intros _ Hw _. apply process_image_raise_unchanged in Hp; [| done]. subst fs.
      apply Hst.
    + destruct (Editor.insert_edit w) as [new_id | e]; simpl; [done |].
      intros _ _ Hno. by destruct (Hno e).
  - intros uid iid image_doc Hu Hi Hf Hin Hcl Hmiss.
    rewrite (edit_image_unfold w _ _ _ _ _ _ st Hu Hi), Hf. cbv zeta.
    unfold ImageAI.process_image, OS.read_file. rewrite Hin, Hcl, Hmiss. simpl.
    by rewrite Hst.
Qed.

Lemma edit_image_failure_changes_nothing_witness :
  @Editor.edit_image Reference_instances.bson Scenario.edit_world
    "650000000000000000000001" "enhance" 50 "64b7f0c2a1d3e4f5a6b7c8d9"
    (@Dashboard.delete_image Reference_instances.bson None
       "650000000000000000000002" "64b7f0c2a1d3e4f5a6b7c8d9"
       {| users_collection := [];
          images_collection :=
            [Scenario.cat_image;
             {| image__id := Scenario.dog_id;
                image_user_id := Scenario.alice;
                image_original_url := "/static/uploads/cat.png";
                image_filename := "cat.png";
                image_uploaded_at := 1700000150;
                image_tags := [] |}];
          edits_collection := [];
          files := <["static/uploads/cat.png" := Scenario.dog_bytes]> Scenario.no_files |}).2
  = (Raise (OS.FileNotFoundError "static/uploads/cat.png"),
     (@Dashboard.delete_image Reference_instances.bson None
        "650000000000000000000002" "64b7f0c2a1d3e4f5a6b7c8d9"
        {| users_collection := [];
           images_collection :=
             [Scenario.cat_image;
              {| image__id := Scenario.dog_id;
                 image_user_id := Scenario.alice;
                 image_original_url := "/static/uploads/cat.png";
                 image_filename := "cat.png";
                 image_uploaded_at := 1700000150;
                 image_tags := [] |}];
           edits_collection := [];
           files :=
             <["static/uploads/cat.png" := Scenario.dog_bytes]> Scenario.no_files |}).2).
Proof.
  apply (@edit_image_failure_changes_nothing Reference_instances.bson Scenario.edit_world
           "650000000000000000000001" "enhance" 50 "64b7f0c2a1d3e4f5a6b7c8d9")
    with (uid := Scenario.alice) (iid := Scenario.cat_id) (image_doc := Scenario.cat_image);
    reflexivity.
Defined.

(** X15.  Neither the choice among the supported edit types nor the
    intensity reaches the image service.  For any two supported edit types
    and any two intensities, [process_image] raises the same or nothing and
    leaves the same files.  Two [edit_image] requests that differ in these
    only, in worlds where [ObjectId()] and the image service answer alike,
    leave the same files, and give the same outcome whenever the store
    accepts the edit document of each (the driver may refuse one and not
    the other: an intensity beyond 64 bits cannot be encoded). *)
Theorem supported_edit_type_and_intensity_do_not_matter `{Bson}
    (w1 w2 : Editor.EditWorld) (image_id user_id : string) (t1 t2 : string) (n1 n2 : Z)
    (st : State) :
  ImageAI.in_prompts t1 = true ->
  ImageAI.in_prompts t2 = true ->
  Editor.new_object_id w1 = Editor.new_object_id w2 ->
  Editor.ai w1 = Editor.ai w2 ->
  (forall aw input_path output_path fs,
     ImageAI.process_image aw input_path output_path t1 n1 fs
     = ImageAI.process_image aw input_path output_path t2 n2 fs)
  /\ files (Editor.edit_image w1 image_id t1 n1 user_id st).2
     = files (Editor.edit_image w2 image_id t2 n2 user_id st).2
  /\ (forall id1 id2,
        Editor.insert_edit w1 = Mongo.inserted_id id1 ->
        Editor.insert_edit w2 = Mongo.inserted_id id2 ->
        (Editor.edit_image w1 image_id t1 n1 user_id st).1
        = (Editor.edit_image w2 image_id t2 n2 user_id st).1).
Proof.
  intros H1 H2 Hid Hai.
  assert (Hp : forall aw input_path output_path fs,
             ImageAI.process_image aw input_path output_path t1 n1 fs
             = ImageAI.process_image aw input_path output_path t2 n2 fs).
  { intros. unfold ImageAI.process_image. by rewrite H1, H2. }
  split; [exact Hp |]. unfold Editor.edit_image. rewrite Hid, Hai.
  destruct (ObjectId user_id) as [uid |]; [| done].
  destruct (ObjectId image_id) as [iid |]; [| done].
  destruct (Mongo.find_one _ _) as [image_doc |]; [| done].
  rewrite Hp. destruct (ImageAI.process_image _ _ _ _ _ _) as [[e |] fs]; [done |].
  split.
  - by destruct (Editor.insert_edit w1), (Editor.insert_edit w2).
  - intros id1 id2 -> ->. done.
Qed.

Lemma supported_edit_type_and_intensity_do_not_matter_witness :
  (@Editor.edit_image Reference_instances.bson Scenario.edit_world
     "650000000000000000000001" "enhance" 50 "64b7f0c2a1d3e4f5a6b7c8d9" Scenario.uploaded).1
  = (@Editor.edit_image Reference_instances.bson
       {| Editor.new_object_id := Scenario.out_id;
          Editor.ai := Scenario.service_ok;
          Editor.edited_at_now := 1700000900;
          Editor.insert_edit := Mongo.inserted_id Scenario.user_id_new |}
       "650000000000000000000001" "background" 0 "64b7f0c2a1d3e4f5a6b7c8d9"
       Scenario.uploaded).1.
Proof.
  destruct (@supported_edit_type_and_intensity_do_not_matter Reference_instances.bson
              Scenario.edit_world
              {| Editor.new_object_id := Scenario.out_id;
                 Editor.ai := Scenario.service_ok;
                 Editor.edited_at_now := 1700000900;
                 Editor.insert_edit := Mongo.inserted_id Scenario.user_id_new |}
              "650000000000000000000001" "64b7f0c2a1d3e4f5a6b7c8d9"
              "enhance" "background" 50 0 Scenario.uploaded
              eq_refl eq_refl eq_refl eq_refl) as (_ & _ & Hout).
  exact (Hout Scenario.edit_id Scenario.user_id_new eq_refl eq_refl).
Defined.

(** X16.  A first edit can be fetched back by the user who requested it:
    when [edit_image] returns and the user had no earlier edit of that
    image, [download_edited_image] with the same image id and user id
    answers with the file "static/processed/<ObjectId>.jpg" as "image/jpeg";
    the returned URL is "/" followed by that path, and the file holds what
    [requests.get] fetched from the URL the image service answered for the
    bytes of the image's upload.  This rests on the string of an ObjectId
    containing no "/". *)
Theorem edit_then_download_edited `{Bson} `{!BsonNoSlash}
    (w : Editor.EditWorld) (image_id edit_type : string) (intensity : Z)
    (user_id : string) (uid iid : oid) (st st' : State) (r : Editor.EditResponse) :
  Editor.edit_image w image_id edit_type intensity user_id st = (Return r, st') ->
  ObjectId user_id = Some uid ->
  ObjectId image_id = Some iid ->
  (forall e, e ∈ edits_collection st -> ~ (edit_image_id e = iid /\ edit_user_id e = uid)) ->
  let name := oid_str (Editor.new_object_id w) +:+ ".jpg" in
  Dashboard.download_edited_image image_id user_id st'
  = Return {| Dashboard.path := "static/processed/" +:+ name;
              Dashboard.media_type := "image/jpeg";
              Dashboard.download_name := name |}
  /\ Editor.edited_url r = "/" +:+ "static/processed/" +:+ name
  /\ exists image_doc uploaded image_url img_data,
       image_doc ∈ images_collection st /\ image__id image_doc = iid
       /\ files st !! Py.os_path_join Editor.UPLOAD_DIR (image_filename image_doc)
          = Some uploaded
       /\ ImageAI.create_variation (Editor.ai w) uploaded = inr image_url
       /\ ImageAI.requests_get (Editor.ai w) image_url = inr img_data
       /\ files st' !! ("static/processed/" +:+ name) = Some img_data.
Proof.
  intros Hret Hu Hi Hfirst. cbv zeta.
  assert (Hname : Py.split "/" (oid_str (Editor.new_object_id w) +:+ ".jpg")
                  = [oid_str (Editor.new_object_id w) +:+ ".jpg"]).
  { apply split_single_app; [apply oid_str_no_slash | reflexivity]. }
  assert (Hpath : Py.os_path_join Editor.EDIT_DIR
                    (oid_str (Editor.new_object_id w) +:+ ".jpg")
                  = "static/processed/" +:+ oid_str (Editor.new_object_id w) +:+ ".jpg").
  { rewrite os_path_join_relative; [reflexivity | | done | done].
    apply (split_no_leading_sep "/" (oid_str (Editor.new_object_id w) +:+ ".jpg")).
    rewrite Hname. by left. }
  rewrite (edit_image_unfold w _ _ _ _ _ _ st Hu Hi) in Hret.
  destruct (Mongo.find_one _ _) as [image_doc |] eqn:Hf; [| discriminate].
  cbv zeta in Hret. rewrite Hpath in Hret.
  destruct (ImageAI.process_image _ _ _ _ _ _) as [[e |] fs] eqn:Hp; [discriminate |].
  simpl in Hret. destruct (Editor.insert_edit w) as [new_id | e]; [| discriminate].
  injection Hret as <- <-.
  apply process_image_None in Hp
    as (_ & uploaded & image_url & img_data & Hup & Hcv & Hrg & ->).
  split; [| split].
  - unfold Dashboard.download_edited_image. rewrite Hi, Hu.
    cbn [edits_collection files]. rewrite find_one_insert_one.
    rewrite (proj2 (find_one_None _ _)).
    + cbn [edit_image_id edit_user_id edit_edited_url].
      rewrite !bool_decide_eq_true_2 by done. cbn [andb edit_edited_url].
      rewrite (last_segment_processed _ Hname).
      change Dashboard.EDIT_DIR with Editor.EDIT_DIR. rewrite Hpath.
      unfold OS.path_exists. rewrite fs_lookup_insert_eq.
      rewrite bool_decide_eq_true_2 by (by eexists). done.
    + intros e He. apply Bool.not_true_is_false. intros Hq.
      apply andb_prop in Hq as [Hq1 Hq2]. apply bool_decide_eq_true_1 in Hq1, Hq2.
      by apply (Hfirst e He).
  - done.
  - apply find_one_Some in Hf as [Hin Hq]. apply bool_decide_eq_true_1 in Hq.
    exists image_doc, uploaded, image_url, img_data. repeat split; try done.
    cbn [files]. apply fs_lookup_insert_eq.
Qed.

Lemma edit_then_download_edited_witness :
  @Dashboard.download_edited_image Reference_instances.bson
    "650000000000000000000001" "64b7f0c2a1d3e4f5a6b7c8d9"
    (@Editor.edit_image Reference_instances.bson Scenario.edit_world
       "650000000000000000000001" "enhance" 50 "64b7f0c2a1d3e4f5a6b7c8d9"
       Scenario.uploaded).2
  = Return {| Dashboard.path := "static/processed/660000000000000000000001.jpg";
              Dashboard.media_type := "image/jpeg";
              Dashboard.download_name := "660000000000000000000001.jpg" |}.
Proof.
  destruct (@edit_then_download_edited Reference_instances.bson reference_bson_no_slash
              Scenario.edit_world "650000000000000000000001" "enhance" 50
              "64b7f0c2a1d3e4f5a6b7c8d9" Scenario.alice Scenario.cat_id
              Scenario.uploaded _ _ eq_refl eq_refl eq_refl) as (Hdown & _ & _).
  - intros e He. by apply not_elem_of_nil in He.
  - exact Hdown.
Defined.

(** X17.  [download_edited_image] serves the first edit the user made of an
    image, and later edits do not change that: whatever [edit_image] request
    follows, by whomever and on whichever image, the download answers with
    the same file as before. *)
Theorem later_edits_do_not_change_download `{Bson}
    (w : Editor.EditWorld) (image_id edit_type : string) (intensity : Z)
    (user_id : string) (st : State)
    (download_id download_user : string) (r : Dashboard.FileResponse) :
  Dashboard.download_edited_image download_id download_user st = Return r ->
  Dashboard.download_edited_image download_id download_user
    (Editor.edit_image w image_id edit_type intensity user_id st).2
  = Return r.
Proof.
  destruct (edit_image_edits w image_id edit_type intensity user_id st)
    as (added & Hadd & _).
  pose proof (edit_image_keeps_files w image_id edit_type intensity user_id st) as Hkeep.
  unfold Dashboard.download_edited_image.
  destruct (ObjectId download_id) as [iid |]; [| done].
  destruct (ObjectId download_user) as [uid |]; [| done].
  rewrite Hadd, find_one_app.
  destruct (Mongo.find_one _ (edits_collection st)) as [e |]; [| done].
  unfold OS.path_exists. case_bool_decide as Hex; [| done]. simpl.
  intros [= <-]. rewrite bool_decide_eq_true_2; [done |]. by apply Hkeep.
Qed.

Lemma later_edits_do_not_change_download_witness :
  @Dashboard.download_edited_image Reference_instances.bson
    "650000000000000000000001" "64b7f0c2a1d3e4f5a6b7c8d9"
    (@Editor.edit_image Reference_instances.bson
       {| Editor.new_object_id := Scenario.dog_id;
          Editor.ai := Scenario.service_ok;
          Editor.edited_at_now := 1700000900;
          Editor.insert_edit := Mongo.inserted_id Scenario.user_id_new |}
       "650000000000000000000001" "style" 10 "64b7f0c2a1d3e4f5a6b7c8d9"
       Scenario.edited).2
  = Return {| Dashboard.path := "static/processed/660000000000000000000001.jpg";
              Dashboard.media_type := "image/jpeg";
              Dashboard.download_name := "660000000000000000000001.jpg" |}.
Proof.
  apply (@later_edits_do_not_change_download Reference_instances.bson). reflexivity.
Defined.

(** X18.  The listing shows the first edit of an image, and a later edit
    does not replace it.  After [edit_image] returns, every user's rows are
    the former rows, in the same order, where an image that already had an
    edit keeps it, the edited image gets the new edit if it had none, and
    every other image without an edit stays without. *)
Theorem listing_keeps_first_edit `{Bson}
    (w : Editor.EditWorld) (image_id edit_type : string) (intensity : Z)
    (user_id : string) (iid : oid) (st st' : State) (r : Editor.EditResponse) :
  Editor.edit_image w image_id edit_type intensity user_id st = (Return r, st') ->
  ObjectId image_id = Some iid ->
  exists new_edit,
    edits_collection st' = Mongo.insert_one new_edit (edits_collection st)
    /\ edit_image_id new_edit = iid
    /\ edit_edited_url new_edit = Editor.edited_url r
    /\ edit_edit_type new_edit = edit_type
    /\ forall u,
         Dashboard.images_with_edit u st'
         = List.map
             (fun row : ImageDoc * option EditDoc =>
                (row.1,
                 match row.2 with
                 | Some first_edit => Some first_edit
                 | None =>
                     if bool_decide (image__id row.1 = iid) then Some new_edit else None
                 end))
             (Dashboard.images_with_edit u st).
Proof.
  intros Hret Hi.
  destruct (ObjectId user_id) as [uid |] eqn:Hu;
    [| unfold Editor.edit_image in Hret; by rewrite Hu in Hret].
  rewrite (edit_image_unfold w _ _ _ _ _ _ st Hu Hi) in Hret.
  destruct (Mongo.find_one _ _) as [image_doc |]; [| discriminate].
  cbv zeta in Hret.
  destruct (ImageAI.process_image _ _ _ _ _ _).1; [discriminate |].
  destruct (Editor.insert_edit w) as [new_id | e]; [| discriminate].
  injection Hret as <- <-. eexists. split; [reflexivity |].
  split; [reflexivity |]. split; [reflexivity |]. split; [reflexivity |].
  intros u. unfold Dashboard.images_with_edit. cbn [edits_collection images_collection].
  rewrite List.map_map. apply List.map_ext. intros image. cbn [fst snd].
  rewrite find_one_insert_one. destruct (Mongo.find_one _ _); [done |].
  cbn [edit_image_id]. f_equal.
  destruct (decide (image__id image = iid)) as [-> | Hne].
  - by rewrite !bool_decide_eq_true_2.
  - rewrite !bool_decide_eq_false_2; [done | done | by intros ->].
Qed.

Lemma listing_keeps_first_edit_witness :
  @Dashboard.get_user_images_by_id Reference_instances.bson "64b7f0c2a1d3e4f5a6b7c8d9"
    (@Editor.edit_image Reference_instances.bson
       {| Editor.new_object_id := Scenario.dog_id;
          Editor.ai := Scenario.service_ok;
          Editor.edited_at_now := 1700000900;
          Editor.insert_edit := Mongo.inserted_id Scenario.user_id_new |}
       "650000000000000000000001" "style" 10 "64b7f0c2a1d3e4f5a6b7c8d9"
       Scenario.edited).2
  = @Dashboard.get_user_images_by_id Reference_instances.bson "64b7f0c2a1d3e4f5a6b7c8d9"
      Scenario.edited.
Proof.
  destruct (@listing_keeps_first_edit Reference_instances.bson
              {| Editor.new_object_id := Scenario.dog_id;
                 Editor.ai := Scenario.service_ok;
                 Editor.edited_at_now := 1700000900;
                 Editor.insert_edit := Mongo.inserted_id Scenario.user_id_new |}
              "650000000000000000000001" "style" 10 "64b7f0c2a1d3e4f5a6b7c8d9"
              Scenario.cat_id Scenario.edited _ _ eq_refl eq_refl)
    as (new_edit & _ & _ & _ & _ & Hrows).
  unfold Dashboard.get_user_images_by_id.
  change (@ObjectId Reference_instances.bson "64b7f0c2a1d3e4f5a6b7c8d9")
    with (Some Scenario.alice).
  cbv beta iota. rewrite Hrows. reflexivity.
Defined.

(** ** Deletion beyond the claims *)

Section Delete_more.
Context `{Bson}.

(** What a returning [delete_image] has done. *)
Lemma delete_image_Return (fault : option Exn) (image_id current_user : string)
    (st st' : State) (body : Dashboard.DeleteResponse) :
  Dashboard.delete_image fault image_id current_user st = (Return body, st') ->
  exists iid uid image,
    ObjectId image_id = Some iid /\ ObjectId current_user = Some uid
    /\ image ∈ images_collection st /\ image__id image = iid /\ image_user_id image = uid
    /\ users_collection st' = users_collection st
    /\ images_collection st'
       = Mongo.delete_one (fun i => bool_decide (image__id i = iid)) (images_collection st)
    /\ edits_collection st'
       = Mongo.delete_many (fun e => bool_decide (edit_image_id e = iid))
           (edits_collection st)
    /\ files st'
       = (OS.remove fault (Py.os_path_join Dashboard.UPLOAD_DIR (image_filename image))
            (files st)).2.
Proof.
  intros Hret.
  destruct (ObjectId image_id) as [iid |] eqn:Hi;
    [| unfold Dashboard.delete_image in Hret; by rewrite Hi in Hret].
  destruct (ObjectId current_user) as [uid |] eqn:Hu;
    [| unfold Dashboard.delete_image in Hret; by rewrite Hi, Hu in Hret].
  rewrite (delete_image_unfold fault _ _ _ _ st Hi Hu) in Hret.
  destruct (Mongo.find_one _ _) as [image |] eqn:Hf; [| discriminate].
  apply find_one_Some in Hf as [Hin Hq]. apply andb_prop in Hq as [Hq1 Hq2].
  apply bool_decide_eq_true_1 in Hq1, Hq2.
  exists iid, uid, image. cbv zeta in Hret.
  destruct (OS.remove _ _ _).1 as [e |].
  - destruct (bool_decide _); [| discriminate]. injection Hret as _ <-. by repeat split.
  - injection Hret as _ <-. by repeat split.
Qed.

(** With unique ids, two stored images with the same id are the same
    document. *)
Lemma ids_unique_eq (st : State) (a b : ImageDoc) :
  ids_unique st -> a ∈ images_collection st -> b ∈ images_collection st ->
  image__id a = image__id b -> a = b.
Proof.
  unfold ids_unique. intros Hnd Ha Hb Hid.
  pose proof (find_one_unique_key image__id _ a Hnd Ha) as Hfa.
  pose proof (find_one_unique_key image__id _ b Hnd Hb) as Hfb.
  rewrite Hid in Hfa. rewrite Hfa in Hfb. by injection Hfb.
Qed.

(** After [os.remove] without another fault, the file is not there. *)
Lemma remove_gone (p : string) (fs : OS.FileSystem) :
  (OS.remove None p fs).2 !! p = None.
Proof.
  unfold OS.remove. destruct (fs !! p) eqn:Hp; simpl; [apply fs_lookup_delete_eq | done].
Qed.
End Delete_more.

(** X19.  Once [delete_image] has returned, every later request that names
    the image id finds nothing: for every well-formed user id,
    [download_original_image] answers 404 "Original image not found",
    [download_edited_image] answers 404 "Edited image not found",
    [edit_image] answers 404 "Image not found", and a second [delete_image]
    answers 404 "Image not found" and changes nothing. *)
Theorem deleted_image_is_gone_for_every_request `{Bson}
    (fault : option Exn) (image_id current_user : string) (st st' : State)
    (body : Dashboard.DeleteResponse) :
  Dashboard.delete_image fault image_id current_user st = (Return body, st') ->
  ids_unique st ->
  forall user uid,
    ObjectId user = Some uid ->
    Dashboard.download_original_image image_id user st'
    = HTTPException 404 "Original image not found"
    /\ Dashboard.download_edited_image image_id user st'
       = HTTPException 404 "Edited image not found"
    /\ (forall w edit_type intensity,
          Editor.edit_image w image_id edit_type intensity user st'
          = (HTTPException 404 "Image not found", st'))
    /\ (forall fault',
          Dashboard.delete_image fault' image_id user st'
          = (HTTPException 404 "Image not found", st')).
Proof.
  intros Hret Huniq user uid Huser.
  apply delete_image_Return in Hret
    as (iid & uid0 & image & Hi & _ & _ & _ & _ & _ & Himgs & Hedits & _).
  assert (Hnoimg : forall q : ImageDoc -> bool,
             Mongo.find_one (fun i => bool_decide (image__id i = iid) && q i)
               (images_collection st') = None).
  { intros q. apply find_one_None. intros i Hin. rewrite Himgs in Hin.
    apply (elem_of_delete_one_key image__id) in Hin as [_ Hne]; [| done].
    by rewrite bool_decide_eq_false_2. }
  assert (Hnoimg' : Mongo.find_one (fun i => bool_decide (image__id i = iid))
                      (images_collection st') = None).
  { apply find_one_None. intros i Hin. rewrite Himgs in Hin.
    apply (elem_of_delete_one_key image__id) in Hin as [_ Hne]; [| done].
    by rewrite bool_decide_eq_false_2. }
  assert (Hnoedit : forall q : EditDoc -> bool,
             Mongo.find_one (fun e => bool_decide (edit_image_id e = iid) && q e)
               (edits_collection st') = None).
  { intros q. apply find_one_None. intros e Hin. rewrite Hedits in Hin.
    apply elem_of_delete_many in Hin as [_ Hq]. by rewrite Hq. }
  split; [| split; [| split]].
  - unfold Dashboard.download_original_image. by rewrite Hi, Huser, Hnoimg.
  - unfold Dashboard.download_edited_image. by rewrite Hi, Huser, Hnoedit.
  - intros w edit_type intensity.
    by rewrite (edit_image_unfold w _ _ _ _ _ _ st' Huser Hi), Hnoimg'.
  - intros fault'. by rewrite (delete_image_unfold fault' _ _ _ _ st' Hi Huser), Hnoimg.
Qed.

Lemma deleted_image_is_gone_for_every_request_witness :
  @Dashboard.download_edited_image Reference_instances.bson
    "650000000000000000000001" "64b7f0c2a1d3e4f5a6b7c8d9"
    (@Dashboard.delete_image Reference_instances.bson None
       "650000000000000000000001" "64b7f0c2a1d3e4f5a6b7c8d9" Scenario.edited).2
  = HTTPException 404 "Edited image not found".
Proof.
  destruct (@deleted_image_is_gone_for_every_request Reference_instances.bson None
              "650000000000000000000001" "64b7f0c2a1d3e4f5a6b7c8d9" Scenario.edited
              _ _ eq_refl) with (user := "64b7f0c2a1d3e4f5a6b7c8d9") (uid := Scenario.alice)
    as (_ & Hedited & _).
  - unfold ids_unique. simpl. apply NoDup_singleton.
  - reflexivity.
  - exact Hedited.
Defined.

(** X20.  The documents go before the file.  When the image is owned by the
    caller and its upload is on disk, an error of [os.remove] other than
    [FileNotFoundError] escapes [delete_image] after the image document and
    its edit documents have been deleted, and the file stays.  When the
    upload is already missing, [delete_image] returns "deleted" all the
    same, with the files untouched. *)
Theorem delete_image_file_errors `{Bson}
    (fault : option Exn) (image_id current_user : string) (iid uid : oid)
    (image : ImageDoc) (st : State) :
  ObjectId image_id = Some iid ->
  ObjectId current_user = Some uid ->
  Mongo.find_one
    (fun i => bool_decide (image__id i = iid) && bool_decide (image_user_id i = uid))
    (images_collection st) = Some image ->
  let upload_path := Py.os_path_join Dashboard.UPLOAD_DIR (image_filename image) in
  let res := Dashboard.delete_image fault image_id current_user st in
  images_collection res.2
  = Mongo.delete_one (fun i => bool_decide (image__id i = iid)) (images_collection st)
  /\ edits_collection res.2
     = Mongo.delete_many (fun e => bool_decide (edit_image_id e = iid)) (edits_collection st)
  /\ (forall e data,
        fault = Some e -> exn_class e <> "FileNotFoundError" ->
        files st !! upload_path = Some data ->
        res.1 = Raise e /\ files res.2 = files st)
  /\ (files st !! upload_path = None ->
      res.1 = Return {| Dashboard.status := "deleted" |} /\ files res.2 = files st).
Proof.
  intros Hi Hu Hf. cbv zeta. rewrite (delete_image_unfold fault _ _ _ _ st Hi Hu), Hf.
  cbv zeta. unfold OS.remove.
  destruct (files st !! _) as [data |] eqn:Hfile.
  - destruct fault as [e |]; simpl.
    + case_bool_decide as Hc; simpl.
      * split; [done |]. split; [done |]. split; [| done].
        intros e' data' [= <-] Hne. done.
      * split; [done |]. split; [done |]. split; [| done]. by intros e' data' [= <-] _ _.
    + split; [done |]. split; [done |]. split; [| done]. intros e' data' [=].
  - simpl. split; [done |]. split; [done |]. split; [| done]. intros e' data' _ _ [=].
Qed.

Lemma delete_image_file_errors_witness :
  let res :=
    @Dashboard.delete_image Reference_instances.bson
      (Some (mkExn "PermissionError" "[Errno 13] Permission denied: 'static/uploads/cat.png'"))
      "650000000000000000000001" "64b7f0c2a1d3e4f5a6b7c8d9" Scenario.edited in
  res.1 = Raise (mkExn "PermissionError"
                   "[Errno 13] Permission denied: 'static/uploads/cat.png'")
  /\ images_collection res.2 = []
  /\ files res.2 = files Scenario.edited.
Proof.
  cbv zeta.
  destruct (@delete_image_file_errors Reference_instances.bson
              (Some (mkExn "PermissionError"
                       "[Errno 13] Permission denied: 'static/uploads/cat.png'"))
              "650000000000000000000001" "64b7f0c2a1d3e4f5a6b7c8d9"
              Scenario.cat_id Scenario.alice Scenario.cat_image Scenario.edited
              eq_refl eq_refl eq_refl) as (Himgs & _ & Hfault & _).
  destruct (Hfault _ Scenario.cat_bytes eq_refl) as [Hraise Hfiles];
    [discriminate | reflexivity |].
  split; [exact Hraise |]. split; [exact Himgs | exact Hfiles].
Defined.

(** X21.  Deleting an image takes the upload away from every image stored
    under the same file name.  When [delete_image] returns without another
    fault of [os.remove], an image with a different id but the same file name
    keeps its document, while its file is gone: its owner's
    [download_original_image] answers 404 "File not found". *)
Theorem delete_removes_the_file_of_images_with_the_same_name `{Bson}
    (image_id current_user : string) (st st' : State) (body : Dashboard.DeleteResponse)
    (deleted other : ImageDoc) (other_id other_user : string) :
  Dashboard.delete_image None image_id current_user st = (Return body, st') ->
  ids_unique st ->
  deleted ∈ images_collection st ->
  ObjectId image_id = Some (image__id deleted) ->
  other ∈ images_collection st ->
  image__id other <> image__id deleted ->
  image_filename other = image_filename deleted ->
  ObjectId other_id = Some (image__id other) ->
  ObjectId other_user = Some (image_user_id other) ->
  other ∈ images_collection st'
  /\ files st' !! Py.os_path_join Dashboard.UPLOAD_DIR (image_filename other) = None
  /\ Dashboard.download_original_image other_id other_user st'
     = HTTPException 404 "File not found".
Proof.
  intros Hret Huniq Hdel Hi Hother Hne Hname Hoi Hou.
  apply delete_image_Return in Hret
    as (iid & uid & image & Hi' & _ & Hin & Hid & _ & _ & Himgs & _ & Hfs).
  rewrite Hi in Hi'. injection Hi' as <-.
  assert (image = deleted) as -> by (by apply (ids_unique_eq st)).
  assert (Hkept : other ∈ images_collection st').
  { rewrite Himgs. by apply (elem_of_delete_one_key image__id). }
  assert (Hgone : files st' !! Py.os_path_join Dashboard.UPLOAD_DIR (image_filename other)
                  = None).
  { rewrite Hfs, Hname. apply remove_gone. }
  split; [done |]. split; [done |].
  unfold Dashboard.download_original_image. rewrite Hoi, Hou.
  destruct (Mongo.find_one _ _) as [found |] eqn:Hf.
  - apply find_one_Some in Hf as [Hfin Hq]. apply andb_prop in Hq as [Hq _].
    apply bool_decide_eq_true_1 in Hq.
    assert (found = other) as ->.
    { apply (ids_unique_eq st); [done | | done | done].
      rewrite Himgs in Hfin. by apply delete_one_sublist in Hfin. }
    unfold OS.path_exists. rewrite Hgone.
    rewrite bool_decide_eq_false_2; [done |]. by intros [? ?].
  - rewrite find_one_None in Hf. specialize (Hf other Hkept).
    rewrite !bool_decide_eq_true_2 in Hf by done. discriminate.
Qed.

Lemma delete_removes_the_file_of_images_with_the_same_name_witness :
  @Dashboard.download_original_image Reference_instances.bson
    "650000000000000000000001" "64b7f0c2a1d3e4f5a6b7c8d9"
    (@Dashboard.delete_image Reference_instances.bson None
       "650000000000000000000002" "64b7f0c2a1d3e4f5a6b7c8da" Scenario.two_cats).2
  = HTTPException 404 "File not found".
Proof.
  refine (proj2 (proj2
    (@delete_removes_the_file_of_images_with_the_same_name Reference_instances.bson
       "650000000000000000000002" "64b7f0c2a1d3e4f5a6b7c8da" Scenario.two_cats _ _
       Scenario.second_cat_image Scenario.cat_image
       "650000000000000000000001" "64b7f0c2a1d3e4f5a6b7c8d9"
       eq_refl _ _ eq_refl _ _ eq_refl eq_refl eq_refl))).
  - unfold ids_unique. simpl. apply NoDup_cons. split; [| apply NoDup_singleton].
    intros Hin. apply list_elem_of_singleton in Hin.
    apply (f_equal (@proj1_sig _ _)) in Hin. simpl in Hin. discriminate.
  - right. by left.
  - by left.
  - simpl. intros Heq. apply (f_equal (@proj1_sig _ _)) in Heq. simpl in Heq. discriminate.
Defined.

(** ** Signup and listing details *)

Section First_segment.

(** The first segment of [s.split(sep)] has no separator in it and is
    followed in [s] by nothing or by the separator. *)
Lemma first_split_spec (sep : ascii) (s : string) :
  Py.contains (String sep EmptyString) (Py.first (Py.split sep s)) = false
  /\ (s = Py.first (Py.split sep s)
      \/ exists rest, s = Py.first (Py.split sep s) +:+ String sep rest).
Proof.
  induction s as [| c s [IHc IHs]].
  - split; [reflexivity | by left].
  - destruct (decide (c = sep)) as [-> | Hc].
    + rewrite split_cons_sep. split; [reflexivity |]. right. by exists s.
    + rewrite split_cons_other by done.
      destruct (Py.split sep s) as [| h t] eqn:Hsp; [by destruct (split_nonempty sep s) |].
      unfold Py.first in *. cbn [List.hd] in *. split.
      * cbn [Py.contains]. rewrite IHc. simpl.
        destruct (ascii_dec sep c); [by subst | done].
      * destruct IHs as [-> | [rest ->]]; [by left |]. right. by exists rest.
Qed.
End First_segment.

(** X22.  The username [signup] stores is the email up to its first "@": it
    contains no "@", and the email is the username alone or the username
    followed by "@" and the rest. *)
Theorem signup_username_is_the_part_before_at `{Bson} `{Passlib} `{Jose} `{Environ}
    (w : Signup.World) (data : AuthRequest) (st st' : State) (resp : AuthResponse) :
  Signup.signup w data st = (Return resp, st') ->
  exists user,
    users_collection st' = Mongo.insert_one user (users_collection st)
    /\ user_email user = req_email data
    /\ Py.contains "@" (user_username user) = false
    /\ (req_email data = user_username user
        \/ exists rest, req_email data = user_username user +:+ "@" +:+ rest).
Proof.
  intros Hret.
  apply signup_Return_state in Hret as (new_id & hashed & _ & _ & _ & _ & _ & ->).
  eexists. split; [reflexivity |]. split; [reflexivity |].
  cbn [user_username]. apply (first_split_spec "@").
Qed.

Lemma signup_username_is_the_part_before_at_witness :
  exists user,
    users_collection
      (@Signup.signup Reference_instances.bson Reference_instances.passlib
         Reference_instances.jose Reference_instances.environ
         Scenario.signup_world {| req_email := "b.c@x.com"; req_password := "pw2" |}
         Scenario.empty_state).2
    = [user]
    /\ user_username user = "b.c".
Proof.
  destruct (@signup_username_is_the_part_before_at
              Reference_instances.bson Reference_instances.passlib
              Reference_instances.jose Reference_instances.environ
              Scenario.signup_world {| req_email := "b.c@x.com"; req_password := "pw2" |}
              Scenario.empty_state
              (@Signup.signup Reference_instances.bson Reference_instances.passlib
                 Reference_instances.jose Reference_instances.environ
                 Scenario.signup_world {| req_email := "b.c@x.com"; req_password := "pw2" |}
                 Scenario.empty_state).2 _ eq_refl) as (user & Husers & _).
  exists user. split; [exact Husers |].
  assert (Hu : [ {| user__id := Scenario.user_id_new;
                    user_email := "b.c@x.com";
                    user_username := "b.c";
                    user_password_hash := Reference.hash_of "pw2" "salt-b";
                    user_created_at := 1700000300 |} ] = [user]) by exact Husers.
  by injection Hu as <-.
Defined.

(** X23.  The listing of a user is made of that user's images and of edits
    of those very images.  For a well-formed user id,
    [get_user_images_by_id] returns one entry per stored image of the user,
    in the order of the collection; the edited URL and the edit type of an
    entry are those of one stored edit of the entry's image, and they are
    absent only when no stored edit refers to that image. *)
Theorem listing_is_the_users_images_with_their_own_edits `{Bson}
    (user_id : string) (uid : oid) (st : State) :
  ObjectId user_id = Some uid ->
  exists listing,
    Dashboard.get_user_images_by_id user_id st = Return listing
    /\ List.map Dashboard.id listing
       = List.map (fun i => oid_str (image__id i))
           (List.filter (fun i => bool_decide (image_user_id i = uid))
              (images_collection st))
    /\ forall s, s ∈ listing ->
         exists i,
           i ∈ images_collection st /\ image_user_id i = uid
           /\ Dashboard.id s = oid_str (image__id i)
           /\ Dashboard.name s = image_filename i
           /\ match Dashboard.editedImageUrl s with
              | Some edited =>
                  exists e, e ∈ edits_collection st /\ edit_image_id e = image__id i
                            /\ edited = "http://localhost:8000" +:+ edit_edited_url e
                            /\ Dashboard.editType s = Some (edit_edit_type e)
              | None => Dashboard.editType s = None /\ no_edit_of st (image__id i)
              end.
Proof.
  intros Hu. unfold Dashboard.get_user_images_by_id. rewrite Hu. eexists.
  split; [reflexivity |]. split.
  - unfold Dashboard.images_with_edit, Mongo.find. rewrite !List.map_map.
    by apply List.map_ext.
  - intros s Hs. apply list_elem_of_In, List.in_map_iff in Hs as ([i e] & <- & Hrow).
    unfold Dashboard.images_with_edit, Mongo.find in Hrow.
    apply List.in_map_iff in Hrow as (i' & [= -> <-] & Hi).
    apply List.filter_In in Hi as [Hi Hown]. apply bool_decide_eq_true_1 in Hown.
    exists i. split; [by apply list_elem_of_In |]. split; [done |].
    split; [done |]. split; [done |]. cbn [Dashboard.summary Dashboard.editedImageUrl
                                            Dashboard.editType].
    destruct (Mongo.find_one _ _) as [e |] eqn:Hf.
    + apply find_one_Some in Hf as [He Hq]. apply bool_decide_eq_true_1 in Hq.
      by exists e.
    + split; [done |]. intros e He. rewrite find_one_None in Hf.
      specialize (Hf e He). by apply bool_decide_eq_false_1 in Hf.
Qed.

Lemma listing_is_the_users_images_with_their_own_edits_witness :
  @Dashboard.get_user_images_by_id Reference_instances.bson "64b7f0c2a1d3e4f5a6b7c8d9"
    Scenario.edited
  = Return
      [ {| Dashboard.id := "650000000000000000000001";
           Dashboard.name := "cat.png";
           Dashboard.originalImageUrl := "http://localhost:8000/static/uploads/cat.png";
           Dashboard.editedImageUrl :=
             Some "http://localhost:8000/static/processed/660000000000000000000001.jpg";
           Dashboard.createdAt := Some 1700000100;
           Dashboard.editType := Some "enhance" |} ].
Proof.
  destruct (@listing_is_the_users_images_with_their_own_edits Reference_instances.bson
              "64b7f0c2a1d3e4f5a6b7c8d9" Scenario.alice Scenario.edited eq_refl)
    as (listing & Hlist & _).
  rewrite Hlist. vm_compute in Hlist. by injection Hlist as <-.
Defined.
